(** * edx-ora2: file upload backend on the local filesystem, and the
      submissions data model.

    Shallow embedding of
      - openassessment/fileupload/backends/filesystem.py
      - openassessment/fileupload/urls.py
      - apps/submissions/models.py

    Python text is a [string]; an exception is the [Raise] case of [result];
    code that touches the Django settings, the cache, the clock or the disk
    runs in the monad [M] over an explicit [world]. *)

From Stdlib Require Import ZArith Ascii String List Bool Lia.
From stdpp Require Import base option gmap strings list fin_maps.

Local Open Scope Z_scope.

(* ===================================================================== *)
(** * Python text *)
(* ===================================================================== *)

Module pystr.

(** [c in s] for a one-character [c]. *)
Fixpoint contains (c : ascii) (s : string) : bool :=
  match s with
  | EmptyString => false
  | String d s' => if Ascii.eqb d c then true else contains c s'
  end.

(** [s.startswith(c)] for a one-character [c]. *)
Definition startswith (c : ascii) (s : string) : bool :=
  match s with
  | EmptyString => false
  | String d _ => Ascii.eqb d c
  end.

(** [s.endswith(c)] for a one-character [c]. *)
Fixpoint endswith (c : ascii) (s : string) : bool :=
  match s with
  | EmptyString => false
  | String d EmptyString => Ascii.eqb d c
  | String _ s' => endswith c s'
  end.

(** Python truthiness of a text value: [not s] holds for the empty text. *)
Definition is_empty (s : string) : bool :=
  match s with EmptyString => true | _ => false end.

(** The cut made by [s.split(sep, 1)]: the text before the first [sep] and,
    when there is a [sep], the text after it. *)
Fixpoint partition (sep : ascii) (s : string) : string * option string :=
  match s with
  | EmptyString => (EmptyString, None)
  | String d s' =>
      if Ascii.eqb d sep then (EmptyString, Some s')
      else let '(a, r) := partition sep s' in (String d a, r)
  end.

(** [s.split(sep, 1)]: a list of one or two items. *)
Definition split1 (sep : ascii) (s : string) : list string :=
  match partition sep s with
  | (a, None) => [a]
  | (a, Some b) => [a; b]
  end.

(** [s.split(sep)]: every occurrence of [sep] cuts. *)
Fixpoint split (sep : ascii) (s : string) : list string :=
  match s with
  | EmptyString => [EmptyString]
  | String d s' =>
      if Ascii.eqb d sep then EmptyString :: split sep s'
      else match split sep s' with
           | [] => [String d EmptyString]
           | h :: t => String d h :: t
           end
  end.

(** [sep.join(l)]. *)
Fixpoint join (sep : string) (l : list string) : string :=
  match l with
  | [] => EmptyString
  | [x] => x
  | x :: l' => x +:+ sep +:+ join sep l'
  end.

(** [s[:-1]]: the text without its last character. *)
Fixpoint chop (s : string) : string :=
  match s with
  | EmptyString => EmptyString
  | String _ EmptyString => EmptyString
  | String d s' => String d (chop s')
  end.

End pystr.

(* ===================================================================== *)
(** * Exceptions *)
(* ===================================================================== *)

Inductive exn : Type :=
  | FileUploadInternalError (msg : string)
  | InvalidCacheBackendError (name : string)
  | NoReverseMatch
  | IntegrityError
  | OtherError (msg : string).

Inductive result (A : Type) : Type :=
  | Ok (a : A)
  | Raise (e : exn).
Arguments Ok {A} a.
Arguments Raise {A} e.

Definition is_Ok {A} (r : result A) : bool :=
  match r with Ok _ => true | Raise _ => false end.

(* ===================================================================== *)
(** * os.path on a POSIX system (posixpath) *)
(* ===================================================================== *)

Module posixpath.

Definition sep : ascii := "/"%char.

(** [os.path.join(a, b)]: an absolute [b] discards [a]; a separator is
    inserted unless [a] is empty or already ends with one. *)
Definition join (a b : string) : string :=
  if pystr.startswith sep b then b
  else if pystr.is_empty a || pystr.endswith sep a then a +:+ b
  else a +:+ "/" +:+ b.

Definition isabs (p : string) : bool := pystr.startswith sep p.

(** One turn of the loop of [normpath]; [new_comps] is kept with its last
    item first. *)
Definition norm_step (initial_slashes : nat) (new_comps : list string)
    (comp : string) : list string :=
  if bool_decide (comp = "") || bool_decide (comp = ".") then new_comps
  else if negb (bool_decide (comp = ".."))
          || (bool_decide (initial_slashes = 0%nat) && bool_decide (new_comps = []))
          || match new_comps with
             | [] => false
             | top :: _ => bool_decide (top = "..")
             end
       then comp :: new_comps
       else match new_comps with
            | [] => []
            | _ :: rest => rest
            end.

Definition initial_slashes_of (path : string) : nat :=
  match path with
  | String "/" (String "/" (String "/" _)) => 1
  | String "/" (String "/" _) => 2
  | String "/" _ => 1
  | _ => 0
  end%nat.

Definition normpath (path : string) : string :=
  if pystr.is_empty path then "."
  else
    let initial_slashes := initial_slashes_of path in
    let comps := rev (fold_left (norm_step initial_slashes) (pystr.split sep path) []) in
    let p := pystr.join "/" comps in
    let p := match initial_slashes with
             | O => p
             | 1%nat => "/" +:+ p
             | _ => "//" +:+ p
             end in
    if pystr.is_empty p then "." else p.

(** [os.path.abspath(path)], with the working directory passed in. *)
Definition abspath (cwd path : string) : string :=
  normpath (if isabs path then path else join cwd path).

End posixpath.

(* ===================================================================== *)
(** * The world the backend runs in *)
(* ===================================================================== *)

(** [django.conf.settings], as far as the backend reads it: [None] is an
    attribute that is not defined. *)
Record django_settings : Type := {
  ORA2_FILEUPLOAD_ROOT : option string;
  ORA2_FILEUPLOAD_CACHE_NAME : option string;
}.

(** The expiring authorization store behind [django.core.cache]. An entry
    holds its value and the instant at which it stops being present. *)
Module cache.

Record entry : Type := { value : Z; expires : Z }.

(** Modelled from the spec: [set(key, value, ttl)] of the authorization
    store, which is not part of the sources. The entry is stamped with the
    current time plus the time-to-live; an earlier entry under the same key
    is replaced. *)
Definition set (key : string) (v : Z) (timeout : Z) (now : Z)
    (st : gmap string entry) : gmap string entry :=
  <[key := {| value := v; expires := now + timeout |}]> st.

(** Modelled from the spec: [get(key)] of the authorization store, which is
    not part of the sources. A key is present until its time-to-live has
    elapsed and absent from then on. *)
Definition get (key : string) (now : Z) (st : gmap string entry) : option Z :=
  match st !! key with
  | Some e => if bool_decide (now < expires e) then Some (value e) else None
  | None => None
  end.

End cache.

Record world : Type := {
  settings : django_settings;
  (** [django.core.cache.caches]: the configured cache instances by name. *)
  caches : gmap string (gmap string cache.entry);
  (** [time.time()], in seconds. *)
  clock : Z;
  (** [os.getcwd()]. *)
  cwd : string;
  (** [os.path.exists]. *)
  disk : string -> bool;
  (** The path under which the URLs of [openassessment.fileupload.urls] are
      mounted. *)
  url_prefix : string;
}.

Definition with_caches (c : gmap string (gmap string cache.entry)) (w : world) : world :=
  {| settings := settings w; caches := c; clock := clock w; cwd := cwd w;
     disk := disk w; url_prefix := url_prefix w |}.

Definition with_clock (t : Z) (w : world) : world :=
  {| settings := settings w; caches := caches w; clock := t; cwd := cwd w;
     disk := disk w; url_prefix := url_prefix w |}.

Definition with_disk (d : string -> bool) (w : world) : world :=
  {| settings := settings w; caches := caches w; clock := clock w; cwd := cwd w;
     disk := d; url_prefix := url_prefix w |}.

Definition with_settings (s : django_settings) (w : world) : world :=
  {| settings := s; caches := caches w; clock := clock w; cwd := cwd w;
     disk := disk w; url_prefix := url_prefix w |}.

(** [d] seconds go by. *)
Definition elapse (d : Z) (w : world) : world := with_clock (clock w + d) w.

(** ** State and exceptions *)

Definition M (A : Type) : Type := world -> result A * world.

Definition ret {A} (a : A) : M A := fun w => (Ok a, w).
Definition raise {A} (e : exn) : M A := fun w => (Raise e, w).
Definition bind {A B} (m : M A) (f : A -> M B) : M B :=
  fun w => match m w with
           | (Ok a, w') => f a w'
           | (Raise e, w') => (Raise e, w')
           end.
Definition lift {A} (r : result A) : M A := fun w => (r, w).
Definition ask {A} (f : world -> A) : M A := fun w => (Ok (f w), w).
Definition modify (f : world -> world) : M unit := fun w => (Ok tt, f w).

Declare Scope py_scope.
Delimit Scope py_scope with py.
Notation "x <- m ;; k" := (bind m (fun x => k))
  (at level 100, m at next level, right associativity) : py_scope.
Notation "m ;; k" := (bind m (fun _ => k))
  (at level 100, right associativity) : py_scope.
Local Open Scope py_scope.

(* ===================================================================== *)
(** * openassessment/fileupload/urls.py *)
(* ===================================================================== *)

Module urls.

Definition newline : ascii := "010"%char.

(** The tail [.+/$] of both patterns, on a text that ends with the closing
    slash, as every candidate of [reverse] does: the slash is preceded by at
    least one character, and [.] matches anything but a line break. *)
Definition match_dot_plus_slash (s : string) : bool :=
  pystr.endswith "/" s && negb (pystr.contains newline s)
  && bool_decide (2 <= String.length s)%nat.

(** [^(?P<key>[^|]+)\|(?P<filename>.+)/$]: the key group runs up to the
    first ['|'] and is not empty. *)
Definition match_key_filename (path : string) : bool :=
  match pystr.partition "|" path with
  | (k, Some rest) => negb (pystr.is_empty k) && match_dot_plus_slash rest
  | (_, None) => false
  end.

(** [^(?P<key>.+)/$] *)
Definition match_key (path : string) : bool := match_dot_plus_slash path.

Definition storage_name : string := "openassessment-filesystem-storage".

(** [reverse(viewname, kwargs=...)] over [urlpatterns]: the pattern whose
    groups are the given keywords is filled in, and the outcome has to match
    that pattern. The URL is taken as the patterns see it, before any
    percent-encoding. *)
Definition reverse (viewname : string) (key : string) (filename : option string)
    : M string :=
  if bool_decide (viewname = storage_name) then
    prefix <- ask url_prefix ;;
    match filename with
    | None =>
        let candidate := key +:+ "/" in
        if match_key candidate then ret (prefix +:+ candidate)
        else raise NoReverseMatch
    | Some f =>
        let candidate := key +:+ "|" +:+ f +:+ "/" in
        if match_key_filename candidate then ret (prefix +:+ candidate)
        else raise NoReverseMatch
    end
  else raise NoReverseMatch.

(** Where [$] lets a match end: at the end of the text, or in front of a line
    break that is its last character. The text up to there. *)
Definition upto_dollar (s : string) : string :=
  if pystr.endswith newline s then pystr.chop s else s.

(** The group that [(.+)/$] captures from a text, when it matches: what stands
    before the closing slash, which is not empty and has no line break. *)
Definition group_dot_plus_slash (s : string) : option string :=
  let s' := upto_dollar s in
  let g := pystr.chop s' in
  if pystr.endswith "/" s' && negb (pystr.is_empty g)
     && negb (pystr.contains newline g)
  then Some g else None.

(** The keywords that the first pattern of [urlpatterns] hands to the view. *)
Definition resolve_key_filename (path : string) : option (string * option string) :=
  match pystr.partition "|" path with
  | (k, Some rest) =>
      if pystr.is_empty k then None
      else match group_dot_plus_slash rest with
           | Some f => Some (k, Some f)
           | None => None
           end
  | (_, None) => None
  end.

(** The keywords that the second pattern of [urlpatterns] hands to the view. *)
Definition resolve_key (path : string) : option (string * option string) :=
  match group_dot_plus_slash path with
  | Some k => Some (k, None)
  | None => None
  end.

(** Resolving a path, taken after the mount point, over [urlpatterns]: the
    patterns are tried in the order of the list and the first match wins. *)
Definition resolve (path : string) : option (string * option string) :=
  match resolve_key_filename path with
  | Some kw => Some kw
  | None => resolve_key path
  end.

End urls.

(* ===================================================================== *)
(** * openassessment/fileupload/backends/filesystem.py *)
(* ===================================================================== *)

(** What [Backend] inherits and imports from [.base], which is not part of
    the sources: the two lifetimes, the key naming of [BaseBackend] and
    [Settings.get_bucket_name]. *)
Class BaseBackend : Type := {
  UPLOAD_URL_TIMEOUT : Z;
  DOWNLOAD_URL_TIMEOUT : Z;
  _get_key_name : string -> string;
  get_bucket_name : result string;
}.

Module filesystem.

(** [django.utils.encoding.smart_text] on text. *)
Definition smart_text (s : string) : string := s.

Definition get_upload_cache_key (url_key_name : string) : string :=
  "upload/" +:+ url_key_name.

Definition get_download_cache_key (url_key_name : string) : string :=
  "download/" +:+ url_key_name.

(** The cache instance is handed out by its name in [caches]. *)
Definition get_cache : M string :=
  cache_name <- ask (fun w => ORA2_FILEUPLOAD_CACHE_NAME (settings w)) ;;
  match cache_name with
  | None => raise (FileUploadInternalError "Undefined cache backend for file upload")
  | Some name =>
      cs <- ask caches ;;
      match cs !! name with
      | Some _ => ret name
      | None => raise (InvalidCacheBackendError name)
      end
  end.

(** [cache.set(key, v, timeout)] on the instance called [name]. *)
Definition cache_set (name key : string) (v timeout : Z) : M unit :=
  modify (fun w =>
    with_caches (alter (cache.set key v timeout (clock w)) name (caches w)) w).

(** [cache.get(key)] on the instance called [name]. *)
Definition cache_get (name key : string) : M (option Z) :=
  ask (fun w => st ← caches w !! name; cache.get key (clock w) st).

Definition make_upload_url_available (url_key_name : string) (timeout : Z) : M unit :=
  c <- get_cache ;;
  cache_set c (smart_text (get_upload_cache_key url_key_name)) 1 timeout.

Definition make_download_url_available (url_key_name : string) (timeout : Z) : M unit :=
  c <- get_cache ;;
  cache_set c (smart_text (get_download_cache_key url_key_name)) 1 timeout.

Definition is_upload_url_available (url_key_name : string) : M bool :=
  c <- get_cache ;;
  v <- cache_get c (smart_text (get_upload_cache_key url_key_name)) ;;
  ret (bool_decide (v ≠ None)).

Definition is_download_url_available (url_key_name : string) : M bool :=
  c <- get_cache ;;
  v <- cache_get c (smart_text (get_download_cache_key url_key_name)) ;;
  ret (bool_decide (v ≠ None)).

Section Backend.
Context `{BaseBackend}.

Definition _get_root_directory_path : M string :=
  root_dir <- ask (fun w => ORA2_FILEUPLOAD_ROOT (settings w)) ;;
  match root_dir with
  | None => raise (FileUploadInternalError "Undefined file upload root directory setting")
  | Some d =>
      if pystr.is_empty d
      then raise (FileUploadInternalError "Undefined file upload root directory setting")
      else ret d
  end.

Definition _get_bucket_path : M string :=
  root <- _get_root_directory_path ;;
  bucket <- lift get_bucket_name ;;
  let dir_path := posixpath.join root bucket in
  here <- ask cwd ;;
  ret (posixpath.abspath here dir_path).

Definition _get_data_path (key : string) : M string :=
  bucket_path <- _get_bucket_path ;;
  ret (posixpath.join bucket_path key).

Definition _get_file_path (key : string) : M string :=
  data_path <- _get_data_path key ;;
  ret (posixpath.join data_path "content").

Definition _get_url (key : string) : M string :=
  let key_name := _get_key_name key in
  let key_name := pystr.split1 "|" key_name in
  match key_name with
  | [k] => urls.reverse "openassessment-filesystem-storage" k None
  | k :: f :: _ => urls.reverse "openassessment-filesystem-storage" k (Some f)
  | [] => raise (OtherError "IndexError")
  end.

Definition get_upload_url (key : string) (content_type : string) : M string :=
  make_upload_url_available (_get_key_name key) UPLOAD_URL_TIMEOUT ;;
  _get_url key.

Definition get_download_url (key : string) : M string :=
  file_path <- _get_file_path (_get_key_name key) ;;
  there <- ask (fun w => disk w file_path) ;;
  if negb there then ret ""
  else
    make_download_url_available (_get_key_name key) DOWNLOAD_URL_TIMEOUT ;;
    _get_url key.

End Backend.

End filesystem.

(* ===================================================================== *)
(** * apps/submissions/models.py *)
(* ===================================================================== *)

Module submissions.

(** The rows of the three models; a foreign key is the position of the row
    it points to in its table. *)
Record StudentItem : Type := {
  student_id : string;
  course_id : string;
  item_id : string;
  item_type : string;
}.

Record Submission : Type := {
  submission_student_item : nat;
  attempt_number : N;
  submitted_at : Z;
  submission_created_at : Z;
  answer : string;
}.

Record Score : Type := {
  score_student_item : nat;
  submission : option nat;
  points_earned : N;
  points_possible : N;
  score_created_at : Z;
}.

(** [StudentItem.Meta.unique_together]: the columns that identify a row. *)
Definition unique_together (s : StudentItem) : string * string * string :=
  (course_id s, student_id s, item_id s).

Record ledger : Type := {
  student_items : list StudentItem;
  submission_rows : list Submission;
  score_rows : list Score;
}.

Definition empty_ledger : ledger :=
  {| student_items := []; submission_rows := []; score_rows := [] |}.

(** The rows of the table that carry a given triple. *)
Definition rows_with (t : string * string * string) (tbl : list StudentItem)
    : list StudentItem :=
  filter (fun r => unique_together r = t) tbl.

(** The position of the first row with a given triple. *)
Fixpoint find_row (t : string * string * string) (tbl : list StudentItem)
    : option nat :=
  match tbl with
  | [] => None
  | r :: tbl' =>
      if bool_decide (unique_together r = t) then Some 0%nat
      else S <$> find_row t tbl'
  end.

(** Saving a new [StudentItem] row: the table enforces [unique_together],
    so a row whose triple is taken is refused with [IntegrityError]. *)
Definition insert_student_item (s : StudentItem) (l : ledger) : result nat * ledger :=
  match find_row (unique_together s) (student_items l) with
  | Some _ => (Raise IntegrityError, l)
  | None =>
      (Ok (length (student_items l)),
       {| student_items := student_items l ++ [s];
          submission_rows := submission_rows l;
          score_rows := score_rows l |})
  end.

(** Modelled from the spec: the ledger operation create StudentItem, which
    is not part of the sources. It is idempotent by the unique triple: the
    row that already carries the triple is handed back, and a row is
    inserted only when there is none. *)
Definition get_or_create_student_item (s : StudentItem) (l : ledger)
    : result nat * ledger :=
  match find_row (unique_together s) (student_items l) with
  | Some i => (Ok i, l)
  | None => insert_student_item s l
  end.

(** Modelled from the spec: the ledger operation append Submission, which is
    not part of the sources. A row is added and none is changed. *)
Definition create_submission (s : Submission) (l : ledger) : result nat * ledger :=
  if bool_decide (submission_student_item s < length (student_items l))%nat then
    (Ok (length (submission_rows l)),
     {| student_items := student_items l;
        submission_rows := submission_rows l ++ [s];
        score_rows := score_rows l |})
  else (Raise IntegrityError, l).

(** Modelled from the spec: the ledger operation append Score, which is not
    part of the sources. A row is added and none is changed. *)
Definition create_score (s : Score) (l : ledger) : result nat * ledger :=
  if bool_decide (score_student_item s < length (student_items l))%nat then
    (Ok (length (score_rows l)),
     {| student_items := student_items l;
        submission_rows := submission_rows l;
        score_rows := score_rows l ++ [s] |})
  else (Raise IntegrityError, l).

(** The operations that write to the ledger. *)
Inductive operation : Type :=
  | InsertStudentItem (s : StudentItem)
  | GetOrCreateStudentItem (s : StudentItem)
  | CreateSubmission (s : Submission)
  | CreateScore (s : Score).

Definition run (o : operation) (l : ledger) : result nat * ledger :=
  match o with
  | InsertStudentItem s => insert_student_item s l
  | GetOrCreateStudentItem s => get_or_create_student_item s l
  | CreateSubmission s => create_submission s l
  | CreateScore s => create_score s l
  end.

Definition run_all (os : list operation) (l : ledger) : ledger :=
  fold_left (fun l o => snd (run o l)) os l.

(** At most one row per (course_id, student_id, item_id). *)
Definition unique_triples (l : ledger) : Prop :=
  forall t, (length (rows_with t (student_items l)) <= 1)%nat.

End submissions.

(* ===================================================================== *)
(** * Vocabulary of the statements *)
(* ===================================================================== *)

(** The world in which the cache instance [name] holds entry [e] under [key]
    and everything else is as in [w]. *)
Definition put_entry (name key : string) (e : cache.entry) (w : world) : world :=
  with_caches (alter (insert key e) name (caches w)) w.

(** A grant of [timeout] seconds issued at the time of [w]. *)
Definition grant (timeout : Z) (w : world) : cache.entry :=
  {| cache.value := 1; cache.expires := clock w + timeout |}.

(** The cache the backend is bound to in [w]: its name and its entries. *)
Definition bound_cache (w : world) (name : string) (st : gmap string cache.entry) : Prop :=
  ORA2_FILEUPLOAD_CACHE_NAME (settings w) = Some name /\ caches w !! name = Some st.

(** The location that the specification gives for the content of a key name:
    root directory, bucket, the storage key without the filename part, and the
    leaf [content]. *)
Definition spec_file_path (root bucket key_name : string) : string :=
  root +:+ "/" +:+ bucket +:+ "/" +:+ fst (pystr.partition "|" key_name) +:+ "/content".

(** The separator that [os.path.join] puts after a first argument [a] when
    the second one is a relative path. *)
Definition join_glue (a : string) : string :=
  if pystr.is_empty a || pystr.endswith "/" a then "" else "/".

(** ** Histories of calls *)

(** The calls of the backend that a history is made of, and time going by. *)
Inductive request : Type :=
  | Wait (d : Z)
  | MakeUpload (url_key_name : string) (timeout : Z)
  | MakeDownload (url_key_name : string) (timeout : Z)
  | CheckUpload (url_key_name : string)
  | CheckDownload (url_key_name : string)
  | GetUploadUrl (key content_type : string)
  | GetDownloadUrl (key : string).

Section Requests.
Context `{BaseBackend}.

(** The world after a call, whatever the call returned or raised. *)
Definition run_request (r : request) (w : world) : world :=
  match r with
  | Wait d => elapse d w
  | MakeUpload k t => snd (filesystem.make_upload_url_available k t w)
  | MakeDownload k t => snd (filesystem.make_download_url_available k t w)
  | CheckUpload k => snd (filesystem.is_upload_url_available k w)
  | CheckDownload k => snd (filesystem.is_download_url_available k w)
  | GetUploadUrl key content_type => snd (filesystem.get_upload_url key content_type w)
  | GetDownloadUrl key => snd (filesystem.get_download_url key w)
  end.

Definition run_requests (rs : list request) (w : world) : world :=
  fold_left (fun w r => run_request r w) rs w.

(** The time that a history takes. *)
Definition waited (rs : list request) : Z :=
  fold_left (fun z r => match r with Wait d => z + d | _ => z end) rs 0.

(** The calls that store an upload grant, resp. a download grant, for the key
    name [k]. *)
Definition grants_upload (k : string) (r : request) : bool :=
  match r with
  | MakeUpload k' _ => bool_decide (k' = k)
  | GetUploadUrl key _ => bool_decide (_get_key_name key = k)
  | _ => false
  end.

Definition grants_download (k : string) (r : request) : bool :=
  match r with
  | MakeDownload k' _ => bool_decide (k' = k)
  | GetDownloadUrl key => bool_decide (_get_key_name key = k)
  | _ => false
  end.

(** The cache entry that a call stores, when it stores one. *)
Definition written_key (r : request) : option string :=
  match r with
  | MakeUpload k _ => Some (filesystem.get_upload_cache_key k)
  | MakeDownload k _ => Some (filesystem.get_download_cache_key k)
  | GetUploadUrl key _ => Some (filesystem.get_upload_cache_key (_get_key_name key))
  | GetDownloadUrl key => Some (filesystem.get_download_cache_key (_get_key_name key))
  | _ => None
  end.

End Requests.

(** Two worlds with the same configuration and the same disk: they may differ
    in the time and in the entries of the caches. *)
Definition same_setup (v w : world) : Prop :=
  settings v = settings w /\ cwd v = cwd w /\ disk v = disk w
  /\ url_prefix v = url_prefix w
  /\ forall name, is_Some (caches v !! name) <-> is_Some (caches w !! name).

(* ===================================================================== *)
(** * A deployment to run the definitions on *)
(* ===================================================================== *)

Definition example_backend : BaseBackend := {|
  UPLOAD_URL_TIMEOUT := 3600;
  DOWNLOAD_URL_TIMEOUT := 3600;
  _get_key_name := fun key => "submissions_attachments/" +:+ key;
  get_bucket_name := Ok "openassessment";
|}.

(** A backend that names a key by the key itself. *)
Definition plain_backend : BaseBackend := {|
  UPLOAD_URL_TIMEOUT := 60;
  DOWNLOAD_URL_TIMEOUT := 60;
  _get_key_name := fun key => key;
  get_bucket_name := Ok "openassessment";
|}.

(** A backend whose bucket name cannot be had. *)
Definition bucketless_backend : BaseBackend := {|
  UPLOAD_URL_TIMEOUT := 60;
  DOWNLOAD_URL_TIMEOUT := 60;
  _get_key_name := fun key => key;
  get_bucket_name := Raise (OtherError "no bucket name");
|}.

Definition example_settings : django_settings := {|
  ORA2_FILEUPLOAD_ROOT := Some "/edx/var/ora2";
  ORA2_FILEUPLOAD_CACHE_NAME := Some "ora2-storage";
|}.

Definition example_world : world := {|
  settings := example_settings;
  caches := {[ "ora2-storage" := ∅ ]};
  clock := 1000;
  cwd := "/edx/app";
  disk := fun p => bool_decide (p = "/edx/var/ora2/openassessment/submissions_attachments/att1/content");
  url_prefix := "/openassessment/storage/";
|}.

(** The cache name is defined, as the empty name, and no cache goes by it. *)
Definition unnamed_cache_world : world := {|
  settings := {| ORA2_FILEUPLOAD_ROOT := Some "/edx/var/ora2";
                 ORA2_FILEUPLOAD_CACHE_NAME := Some "" |};
  caches := {[ "ora2-storage" := ∅ ]};
  clock := 0;
  cwd := "/";
  disk := fun _ => false;
  url_prefix := "/";
|}.

(** No setting is defined. *)
Definition bare_world : world := {|
  settings := {| ORA2_FILEUPLOAD_ROOT := None; ORA2_FILEUPLOAD_CACHE_NAME := None |};
  caches := ∅;
  clock := 0;
  cwd := "/";
  disk := fun _ => false;
  url_prefix := "/";
|}.

(* ===================================================================== *)
(** * Examples *)
(* ===================================================================== *)

Example join_ex1 : posixpath.join "/data" "bucket" = "/data/bucket".
Proof. reflexivity. Qed.
Example join_ex2 : posixpath.join "/data/" "bucket" = "/data/bucket".
Proof. reflexivity. Qed.
Example join_ex3 : posixpath.join "/data" "/etc" = "/etc".
Proof. reflexivity. Qed.
Example normpath_ex1 : posixpath.normpath "/data//up/../b/./c/" = "/data/b/c".
Proof. reflexivity. Qed.
Example normpath_ex2 : posixpath.normpath "../a/../../b" = "../../b".
Proof. reflexivity. Qed.
Example normpath_ex3 : posixpath.normpath "//a/.." = "//".
Proof. reflexivity. Qed.
Example abspath_ex1 : posixpath.abspath "/srv/app" "media/ora2" = "/srv/app/media/ora2".
Proof. reflexivity. Qed.
Example split1_ex1 : pystr.split1 "|" "abc|def.png" = ["abc"; "def.png"].
Proof. reflexivity. Qed.


Example reverse_ex1 :
  fst (urls.reverse "openassessment-filesystem-storage" "abc" None example_world)
  = Ok "/openassessment/storage/abc/".
Proof. reflexivity. Qed.
Example reverse_ex2 :
  fst (urls.reverse "openassessment-filesystem-storage" "abc" (Some "def.png") example_world)
  = Ok "/openassessment/storage/abc|def.png/".
Proof. reflexivity. Qed.
Example reverse_ex3 :
  fst (urls.reverse "openassessment-filesystem-storage" "" None example_world)
  = Raise NoReverseMatch.
Proof. reflexivity. Qed.
Example reverse_ex4 :
  fst (urls.reverse "openassessment-filesystem-storage" "abc" (Some "") example_world)
  = Raise NoReverseMatch.
Proof. reflexivity. Qed.
Example get_url_ex1 :
  fst (@filesystem._get_url plain_backend "a|def|ghi" example_world)
  = Ok "/openassessment/storage/a|def|ghi/".
Proof. reflexivity. Qed.
Example get_url_ex2 :
  fst (@filesystem._get_url plain_backend "|def" example_world) = Raise NoReverseMatch.
Proof. reflexivity. Qed.
Example file_path_ex1 :
  fst (@filesystem._get_file_path example_backend "submissions_attachments/att1" example_world)
  = Ok "/edx/var/ora2/openassessment/submissions_attachments/att1/content".
Proof. vm_compute. reflexivity. Qed.
Example file_path_ex2 :
  fst (@filesystem._get_file_path example_backend "k" bare_world)
  = Raise (FileUploadInternalError "Undefined file upload root directory setting").
Proof. reflexivity. Qed.
Example download_ex1 :
  fst (@filesystem.get_download_url example_backend "att1" example_world)
  = Ok "/openassessment/storage/submissions_attachments/att1/".
Proof. vm_compute. reflexivity. Qed.
Example download_ex2 :
  fst (@filesystem.get_download_url example_backend "never-written" example_world) = Ok "".
Proof. vm_compute. reflexivity. Qed.
Example upload_then_check_ex :
  fst (filesystem.is_upload_url_available "u1-problem7-att1"
         (elapse 30 (snd (filesystem.make_upload_url_available "u1-problem7-att1" 60
                            example_world))))
  = Ok true
  /\ fst (filesystem.is_upload_url_available "u1-problem7-att1"
            (elapse 61 (snd (filesystem.make_upload_url_available "u1-problem7-att1" 60
                               example_world))))
     = Ok false
  /\ fst (filesystem.is_download_url_available "u1-problem7-att1"
            (elapse 30 (snd (filesystem.make_upload_url_available "u1-problem7-att1" 60
                               example_world))))
     = Ok false.
Proof. vm_compute. auto. Qed.
Example unbound_cache_ex :
  fst (filesystem.is_upload_url_available "k" bare_world)
  = Raise (FileUploadInternalError "Undefined cache backend for file upload").
Proof. reflexivity. Qed.

(* ===================================================================== *)
(** * Text lemmas *)
(* ===================================================================== *)

Lemma append_cons (c : ascii) (s t : string) :
  String c s +:+ t = String c (s +:+ t).
Proof. reflexivity. Qed.

Lemma append_nil_l (t : string) : "" +:+ t = t.
Proof. reflexivity. Qed.

Lemma append_assoc (a b c : string) : (a +:+ b) +:+ c = a +:+ (b +:+ c).
Proof. induction a as [|x a IH]; [reflexivity|]. rewrite !append_cons. by rewrite IH. Qed.

Lemma append_is_empty (a b : string) :
  pystr.is_empty (a +:+ b) = pystr.is_empty a && pystr.is_empty b.
Proof. by destruct a. Qed.

Lemma is_empty_true (s : string) : pystr.is_empty s = true <-> s = "".
Proof. destruct s; split; intros; try done. Qed.

Lemma is_empty_false (s : string) : pystr.is_empty s = false <-> s ≠ "".
Proof. destruct s; split; intros; try done. Qed.

Lemma upload_download_keys_differ (a b : string) :
  filesystem.get_upload_cache_key a ≠ filesystem.get_download_cache_key b.
Proof. unfold filesystem.get_upload_cache_key, filesystem.get_download_cache_key. rewrite !append_cons. discriminate. Qed.


Lemma partition_first_sep (c : ascii) (a b : string) :
  pystr.contains c a = false ->
  pystr.partition c (a +:+ String c b) = (a, Some b).
Proof.
  induction a as [|d a IH].
  - intros _. change ("" +:+ String c b) with (String c b).
    simpl. by rewrite Ascii.eqb_refl.
  - change (String d a +:+ String c b) with (String d (a +:+ String c b)).
    simpl. destruct (Ascii.eqb d c); [done|].
    intros Ha. by rewrite (IH Ha).
Qed.

(** What [partition] returns puts the text back together, and the part
    before the cut is free of the separator. *)
Lemma partition_inv (c : ascii) (s a : string) (r : option string) :
  pystr.partition c s = (a, r) ->
  pystr.contains c a = false /\
  match r with
  | None => s = a
  | Some b => s = a +:+ String c b
  end.
Proof.
  revert a r. induction s as [|d s IH]; simpl; intros a r.
  - intros [= <- <-]. done.
  - destruct (Ascii.eqb d c) eqn:Hd.
    + intros [= <- <-]. apply Ascii.eqb_eq in Hd as ->. done.
    + destruct (pystr.partition c s) as [a' r'] eqn:Hp.
      intros [= <- <-]. destruct (IH _ _ eq_refl) as [Ha Hs].
      simpl. rewrite Hd. split; [done|].
      destruct r'; rewrite ?append_cons; by rewrite Hs.
Qed.

(* ===================================================================== *)
(** * The monad and the cache *)
(* ===================================================================== *)

Ltac py_unfold :=
  unfold bind, ret, raise, lift, ask, modify in *.

Lemma with_caches_id (w : world) : with_caches (caches w) w = w.
Proof. by destruct w. Qed.

Lemma get_cache_world (w : world) : snd (filesystem.get_cache w) = w.
Proof.
  unfold filesystem.get_cache. py_unfold.
  destruct (ORA2_FILEUPLOAD_CACHE_NAME (settings w)); [|done].
  by destruct (caches w !! s).
Qed.

Lemma get_cache_bound (w : world) name st :
  bound_cache w name st -> filesystem.get_cache w = (Ok name, w).
Proof.
  intros [Hn Hc]. unfold filesystem.get_cache. py_unfold. by rewrite Hn, Hc.
Qed.

Lemma get_cache_undefined (w : world) :
  ORA2_FILEUPLOAD_CACHE_NAME (settings w) = None ->
  filesystem.get_cache w
  = (Raise (FileUploadInternalError "Undefined cache backend for file upload"), w).
Proof. intros Hn. unfold filesystem.get_cache. py_unfold. by rewrite Hn. Qed.

(** The cache binding is read from the settings and from the set of
    configured instances, neither of which a grant changes. *)
Lemma bound_cache_put_entry (w : world) name st name' key e :
  bound_cache w name st ->
  exists st', bound_cache (put_entry name' key e w) name st'.
Proof.
  intros [Hn Hc]. unfold bound_cache, put_entry. simpl.
  destruct (decide (name' = name)) as [->|Hne].
  - exists (<[key := e]> st). split; [done|]. rewrite lookup_alter_eq. by rewrite Hc.
  - exists st. split; [done|]. by rewrite lookup_alter_ne.
Qed.

Lemma bound_cache_put_entry_same (w : world) name st key e :
  bound_cache w name st ->
  bound_cache (put_entry name key e w) name (<[key := e]> st).
Proof.
  intros [Hn Hc]. unfold bound_cache, put_entry. simpl.
  split; [done|]. rewrite lookup_alter_eq. by rewrite Hc.
Qed.

Lemma bound_cache_elapse (w : world) name st d :
  bound_cache w name st -> bound_cache (elapse d w) name st.
Proof. by intros [Hn Hc]. Qed.

Lemma make_upload_bound (w : world) name st k t :
  bound_cache w name st ->
  filesystem.make_upload_url_available k t w
  = (Ok tt, put_entry name (filesystem.get_upload_cache_key k) (grant t w) w).
Proof.
  intros Hb. unfold filesystem.make_upload_url_available, bind.
  by rewrite (get_cache_bound _ _ _ Hb).
Qed.

Lemma make_download_bound (w : world) name st k t :
  bound_cache w name st ->
  filesystem.make_download_url_available k t w
  = (Ok tt, put_entry name (filesystem.get_download_cache_key k) (grant t w) w).
Proof.
  intros Hb. unfold filesystem.make_download_url_available, bind.
  by rewrite (get_cache_bound _ _ _ Hb).
Qed.

Lemma is_upload_bound (w : world) name st k :
  bound_cache w name st ->
  filesystem.is_upload_url_available k w
  = (Ok (bool_decide (cache.get (filesystem.get_upload_cache_key k) (clock w) st ≠ None)), w).
Proof.
  intros Hb. unfold filesystem.is_upload_url_available, bind.
  rewrite (get_cache_bound _ _ _ Hb). destruct Hb as [_ Hc].
  unfold filesystem.cache_get, ask, ret. by rewrite Hc.
Qed.

Lemma is_download_bound (w : world) name st k :
  bound_cache w name st ->
  filesystem.is_download_url_available k w
  = (Ok (bool_decide (cache.get (filesystem.get_download_cache_key k) (clock w) st ≠ None)), w).
Proof.
  intros Hb. unfold filesystem.is_download_url_available, bind.
  rewrite (get_cache_bound _ _ _ Hb). destruct Hb as [_ Hc].
  unfold filesystem.cache_get, ask, ret. by rewrite Hc.
Qed.

(** A grant operation that finds no cache leaves the world as it was. *)
Lemma make_upload_unbound (w : world) k t e :
  fst (filesystem.get_cache w) = Raise e ->
  filesystem.make_upload_url_available k t w = (Raise e, w).
Proof.
  intros He. unfold filesystem.make_upload_url_available, bind.
  pose proof (get_cache_world w) as Hw.
  destruct (filesystem.get_cache w) as [[c|e'] w']; simpl in *; congruence.
Qed.

Lemma make_download_unbound (w : world) k t e :
  fst (filesystem.get_cache w) = Raise e ->
  filesystem.make_download_url_available k t w = (Raise e, w).
Proof.
  intros He. unfold filesystem.make_download_url_available, bind.
  pose proof (get_cache_world w) as Hw.
  destruct (filesystem.get_cache w) as [[c|e'] w']; simpl in *; congruence.
Qed.

Lemma is_upload_unbound (w : world) k e :
  fst (filesystem.get_cache w) = Raise e ->
  filesystem.is_upload_url_available k w = (Raise e, w).
Proof.
  intros He. unfold filesystem.is_upload_url_available, bind.
  pose proof (get_cache_world w) as Hw.
  destruct (filesystem.get_cache w) as [[c|e'] w']; simpl in *; congruence.
Qed.

Lemma is_download_unbound (w : world) k e :
  fst (filesystem.get_cache w) = Raise e ->
  filesystem.is_download_url_available k w = (Raise e, w).
Proof.
  intros He. unfold filesystem.is_download_url_available, bind.
  pose proof (get_cache_world w) as Hw.
  destruct (filesystem.get_cache w) as [[c|e'] w']; simpl in *; congruence.
Qed.

(** Either a cache is bound or [get_cache] raises. *)
Lemma get_cache_cases (w : world) :
  (exists name st, bound_cache w name st) \/ (exists e, fst (filesystem.get_cache w) = Raise e).
Proof.
  unfold bound_cache, filesystem.get_cache. py_unfold.
  destruct (ORA2_FILEUPLOAD_CACHE_NAME (settings w)) as [n|]; [|right; eauto].
  destruct (caches w !! n) as [st|] eqn:Hc; [left; eauto|right; eauto].
Qed.

Lemma cache_get_insert_eq key e now (st : gmap string cache.entry) :
  cache.get key now (<[key := e]> st)
  = if bool_decide (now < cache.expires e) then Some (cache.value e) else None.
Proof. unfold cache.get. by rewrite lookup_insert_eq. Qed.

Lemma cache_get_insert_ne key key' e now (st : gmap string cache.entry) :
  key ≠ key' -> cache.get key' now (<[key := e]> st) = cache.get key' now st.
Proof. intros Hne. unfold cache.get. by rewrite lookup_insert_ne. Qed.

(* ===================================================================== *)
(** * URLs *)
(* ===================================================================== *)

Lemma reverse_world viewname key filename (w : world) :
  snd (urls.reverse viewname key filename w) = w.
Proof.
  unfold urls.reverse. py_unfold.
  destruct (bool_decide _); [|done].
  destruct filename; simpl.
  - by destruct (urls.match_key_filename _).
  - by destruct (urls.match_key _).
Qed.

Lemma reverse_prefix viewname key filename (w w' : world) :
  url_prefix w = url_prefix w' ->
  fst (urls.reverse viewname key filename w) = fst (urls.reverse viewname key filename w').
Proof.
  intros Hp. unfold urls.reverse. py_unfold.
  destruct (bool_decide _); [|done].
  destruct filename; simpl; rewrite Hp.
  - by destruct (urls.match_key_filename _).
  - by destruct (urls.match_key _).
Qed.

Lemma append_slash_nonempty (p s : string) : p +:+ s +:+ "/" ≠ "".
Proof.
  intros Hs. apply is_empty_true in Hs.
  rewrite !append_is_empty in Hs. simpl in Hs.
  by rewrite !andb_false_r in Hs.
Qed.

Lemma reverse_nonempty viewname key filename (w : world) :
  fst (urls.reverse viewname key filename w) ≠ Ok "".
Proof.
  unfold urls.reverse. py_unfold.
  destruct (bool_decide _); [|done].
  destruct filename; simpl.
  - destruct (urls.match_key_filename _); [|done]. simpl.
    intros [= Hs]. apply is_empty_true in Hs.
    rewrite !append_is_empty in Hs. simpl in Hs.
    by rewrite !andb_false_r in Hs.
  - destruct (urls.match_key _); [|done]. simpl.
    intros [= Hs]. by apply append_slash_nonempty in Hs.
Qed.

Section Backend_facts.
Context `{BaseBackend}.

Lemma _get_url_world key (w : world) : snd (filesystem._get_url key w) = w.
Proof.
  unfold filesystem._get_url.
  destruct (pystr.split1 _ _) as [|k [|f l]]; [done| |]; apply reverse_world.
Qed.

Lemma _get_url_prefix key (w w' : world) :
  url_prefix w = url_prefix w' ->
  fst (filesystem._get_url key w) = fst (filesystem._get_url key w').
Proof.
  intros Hp. unfold filesystem._get_url.
  destruct (pystr.split1 _ _) as [|k [|f l]]; [done| |]; by apply reverse_prefix.
Qed.

Lemma _get_url_nonempty key (w : world) : fst (filesystem._get_url key w) ≠ Ok "".
Proof.
  unfold filesystem._get_url.
  destruct (pystr.split1 _ _) as [|k [|f l]]; [done| |]; apply reverse_nonempty.
Qed.

Lemma _get_url_eta key (w : world) :
  filesystem._get_url key w = (fst (filesystem._get_url key w), w).
Proof.
  pose proof (_get_url_world key w).
  destruct (filesystem._get_url key w); simpl in *; congruence.
Qed.

(** ** Paths *)

Lemma _get_root_directory_path_world (w : world) :
  snd (filesystem._get_root_directory_path w) = w.
Proof.
  unfold filesystem._get_root_directory_path. py_unfold.
  destruct (ORA2_FILEUPLOAD_ROOT (settings w)) as [d|]; [|done].
  by destruct (pystr.is_empty d).
Qed.

Lemma _get_bucket_path_world (w : world) :
  snd (filesystem._get_bucket_path w) = w.
Proof.
  unfold filesystem._get_bucket_path, bind.
  pose proof (_get_root_directory_path_world w) as Hw.
  destruct (filesystem._get_root_directory_path w) as [[r|e] w']; simpl in *; subst; [|done].
  unfold lift, ask, ret. by destruct get_bucket_name.
Qed.

Lemma _get_data_path_world k (w : world) :
  snd (filesystem._get_data_path k w) = w.
Proof.
  unfold filesystem._get_data_path, bind.
  pose proof (_get_bucket_path_world w) as Hw.
  by destruct (filesystem._get_bucket_path w) as [[r|e] w']; simpl in *; subst.
Qed.

Lemma _get_file_path_world k (w : world) :
  snd (filesystem._get_file_path k w) = w.
Proof.
  unfold filesystem._get_file_path, bind.
  pose proof (_get_data_path_world k w) as Hw.
  by destruct (filesystem._get_data_path k w) as [[r|e] w']; simpl in *; subst.
Qed.

Lemma _get_file_path_eta k (w : world) :
  filesystem._get_file_path k w = (fst (filesystem._get_file_path k w), w).
Proof.
  pose proof (_get_file_path_world k w).
  destruct (filesystem._get_file_path k w); simpl in *; congruence.
Qed.

(** The three outcomes of [get_download_url]. *)
Lemma get_download_url_raise key (w : world) e :
  fst (filesystem._get_file_path (_get_key_name key) w) = Raise e ->
  filesystem.get_download_url key w = (Raise e, w).
Proof.
  intros Hp. unfold filesystem.get_download_url, bind.
  rewrite _get_file_path_eta, Hp. done.
Qed.

Lemma get_download_url_absent key (w : world) p :
  fst (filesystem._get_file_path (_get_key_name key) w) = Ok p ->
  disk w p = false ->
  filesystem.get_download_url key w = (Ok "", w).
Proof.
  intros Hp Hd. unfold filesystem.get_download_url, bind.
  rewrite _get_file_path_eta, Hp. unfold ask. by rewrite Hd.
Qed.

Lemma get_download_url_present key (w : world) p :
  fst (filesystem._get_file_path (_get_key_name key) w) = Ok p ->
  disk w p = true ->
  filesystem.get_download_url key w
  = (filesystem.make_download_url_available (_get_key_name key) DOWNLOAD_URL_TIMEOUT ;;
     filesystem._get_url key)%py w.
Proof.
  intros Hp Hd. unfold filesystem.get_download_url at 1. unfold bind at 1.
  rewrite _get_file_path_eta, Hp. unfold bind at 1, ask. by rewrite Hd.
Qed.

End Backend_facts.

(* ===================================================================== *)
(** * Grants *)
(* ===================================================================== *)

Lemma put_entry_twice name key e1 e2 d (w : world) :
  put_entry name key e2 (elapse d (put_entry name key e1 w))
  = put_entry name key e2 (elapse d w).
Proof.
  unfold put_entry, elapse, with_caches, with_clock. simpl. f_equal.
  apply map_eq. intros i. destruct (decide (i = name)) as [->|Hne].
  - rewrite !lookup_alter_eq. destruct (caches w !! name) as [st|]; simpl; [|done].
    by rewrite insert_insert_eq.
  - by rewrite !lookup_alter_ne.
Qed.

Lemma put_entry_with_disk name key e d (w : world) :
  put_entry name key e (with_disk d w) = with_disk d (put_entry name key e w).
Proof. reflexivity. Qed.

Lemma grant_elapse t d (w : world) :
  grant t (elapse d w) = {| cache.value := 1; cache.expires := clock w + d + t |}.
Proof. reflexivity. Qed.

(** What a check for one direction sees is the same before and after a grant
    for the other direction, at any time. *)
Lemma upload_grant_frames_download k k' t d (w : world) :
  fst (filesystem.is_download_url_available k'
         (elapse d (snd (filesystem.make_upload_url_available k t w))))
  = fst (filesystem.is_download_url_available k' (elapse d w)).
Proof.
  destruct (get_cache_cases w) as [(name & st & Hb)|[e He]].
  - rewrite (make_upload_bound _ _ _ _ _ Hb). simpl.
    pose proof (bound_cache_put_entry_same w name st
      (filesystem.get_upload_cache_key k) (grant t w) Hb) as Hb'.
    rewrite (is_download_bound _ _ _ _ (bound_cache_elapse _ _ _ d Hb')).
    rewrite (is_download_bound _ _ _ _ (bound_cache_elapse _ _ _ d Hb)).
    simpl. rewrite cache_get_insert_ne; [done|]. apply upload_download_keys_differ.
  - by rewrite (make_upload_unbound _ _ _ _ He).
Qed.

Lemma download_grant_frames_upload k k' t d (w : world) :
  fst (filesystem.is_upload_url_available k'
         (elapse d (snd (filesystem.make_download_url_available k t w))))
  = fst (filesystem.is_upload_url_available k' (elapse d w)).
Proof.
  destruct (get_cache_cases w) as [(name & st & Hb)|[e He]].
  - rewrite (make_download_bound _ _ _ _ _ Hb). simpl.
    pose proof (bound_cache_put_entry_same w name st
      (filesystem.get_download_cache_key k) (grant t w) Hb) as Hb'.
    rewrite (is_upload_bound _ _ _ _ (bound_cache_elapse _ _ _ d Hb')).
    rewrite (is_upload_bound _ _ _ _ (bound_cache_elapse _ _ _ d Hb)).
    simpl. rewrite cache_get_insert_ne; [done|].
    intros Heq. by apply (upload_download_keys_differ k' k).
  - by rewrite (make_download_unbound _ _ _ _ He).
Qed.

(** A check [d] seconds after a grant of [t] seconds. *)
Lemma is_upload_after_grant k t d (w : world) name st :
  bound_cache w name st ->
  fst (filesystem.is_upload_url_available k
         (elapse d (snd (filesystem.make_upload_url_available k t w))))
  = Ok (bool_decide (d < t)).
Proof.
  intros Hb. rewrite (make_upload_bound _ _ _ _ _ Hb). simpl.
  pose proof (bound_cache_put_entry_same w name st
    (filesystem.get_upload_cache_key k) (grant t w) Hb) as Hb'.
  rewrite (is_upload_bound _ _ _ _ (bound_cache_elapse _ _ _ d Hb')).
  simpl. rewrite cache_get_insert_eq. simpl. f_equal.
  destruct (decide (d < t)).
  - rewrite (bool_decide_eq_true_2 (d < t)) by done.
    rewrite (bool_decide_eq_true_2 (clock w + d < clock w + t)) by lia.
    by apply bool_decide_eq_true_2.
  - rewrite (bool_decide_eq_false_2 (d < t)) by done.
    rewrite (bool_decide_eq_false_2 (clock w + d < clock w + t)) by lia.
    apply bool_decide_eq_false_2. by intros Hn.
Qed.

Lemma is_download_after_grant k t d (w : world) name st :
  bound_cache w name st ->
  fst (filesystem.is_download_url_available k
         (elapse d (snd (filesystem.make_download_url_available k t w))))
  = Ok (bool_decide (d < t)).
Proof.
  intros Hb. rewrite (make_download_bound _ _ _ _ _ Hb). simpl.
  pose proof (bound_cache_put_entry_same w name st
    (filesystem.get_download_cache_key k) (grant t w) Hb) as Hb'.
  rewrite (is_download_bound _ _ _ _ (bound_cache_elapse _ _ _ d Hb')).
  simpl. rewrite cache_get_insert_eq. simpl. f_equal.
  destruct (decide (d < t)).
  - rewrite (bool_decide_eq_true_2 (d < t)) by done.
    rewrite (bool_decide_eq_true_2 (clock w + d < clock w + t)) by lia.
    by apply bool_decide_eq_true_2.
  - rewrite (bool_decide_eq_false_2 (d < t)) by done.
    rewrite (bool_decide_eq_false_2 (clock w + d < clock w + t)) by lia.
    apply bool_decide_eq_false_2. by intros Hn.
Qed.

(* ===================================================================== *)
(** * The authorization gate *)
(* ===================================================================== *)

Section Gate.
Context `{BaseBackend}.

(** C1. [get_download_url key] returns the empty text exactly when the
    content file of the key resolves to a path that is not on the disk at
    the time of the call. When the file is there and a cache is bound, the
    call stores a download grant that lasts [DOWNLOAD_URL_TIMEOUT] seconds
    and returns the URL that [_get_url] derives from the key. *)
Theorem get_download_url_empty_iff_absent key (w : world) :
  let key_name := _get_key_name key in
  (fst (filesystem.get_download_url key w) = Ok ""
   <-> exists p, fst (filesystem._get_file_path key_name w) = Ok p /\ disk w p = false)
  /\ (forall p name st,
        fst (filesystem._get_file_path key_name w) = Ok p ->
        disk w p = true ->
        bound_cache w name st ->
        filesystem.get_download_url key w
        = (fst (filesystem._get_url key w),
           put_entry name (filesystem.get_download_cache_key key_name)
             (grant DOWNLOAD_URL_TIMEOUT w) w)).
Proof.
  intros key_name. split; [split|].
  - intros Hr.
    destruct (fst (filesystem._get_file_path key_name w)) as [p|e] eqn:Hp.
    + exists p. split; [done|]. destruct (disk w p) eqn:Hd; [|done]. exfalso.
      rewrite (get_download_url_present key w p Hp Hd) in Hr.
      unfold bind in Hr.
      destruct (filesystem.make_download_url_available _ _ w) as [[[]|e] w']; [|done].
      by apply _get_url_nonempty in Hr.
    + by rewrite (get_download_url_raise key w e Hp) in Hr.
  - intros (p & Hp & Hd). by rewrite (get_download_url_absent key w p Hp Hd).
  - intros p name st Hp Hd Hb.
    rewrite (get_download_url_present key w p Hp Hd). unfold bind.
    rewrite (make_download_bound _ _ _ _ _ Hb).
    rewrite _get_url_eta. f_equal. by apply _get_url_prefix.
Qed.

(** C2. With a cache bound, [get_upload_url key content_type] stores an
    upload grant for the key name that lasts [UPLOAD_URL_TIMEOUT] seconds and
    then returns what [_get_url] derives from the key. The disk plays no
    part: on any disk the outcome is the same. A second call, [d] seconds
    later, leaves the store as a single call at that time would: the grant
    runs for the whole lifetime again. *)
Theorem get_upload_url_registers_grant key content_type (w : world) name st :
  bound_cache w name st ->
  let cache_key := filesystem.get_upload_cache_key (_get_key_name key) in
  let w1 := put_entry name cache_key (grant UPLOAD_URL_TIMEOUT w) w in
  filesystem.get_upload_url key content_type w = (fst (filesystem._get_url key w), w1)
  /\ bound_cache w1 name (<[cache_key := grant UPLOAD_URL_TIMEOUT w]> st)
  /\ (forall dsk,
        filesystem.get_upload_url key content_type (with_disk dsk w)
        = (fst (filesystem._get_url key w), with_disk dsk w1))
  /\ (forall d content_type',
        filesystem.get_upload_url key content_type' (elapse d w1)
        = (fst (filesystem._get_url key w),
           put_entry name cache_key
             {| cache.value := 1; cache.expires := clock w + d + UPLOAD_URL_TIMEOUT |}
             (elapse d w))).
Proof.
  intros Hb cache_key w1.
  assert (Hcall : forall ct (v : world) stv, bound_cache v name stv ->
            url_prefix v = url_prefix w ->
            filesystem.get_upload_url key ct v
            = (fst (filesystem._get_url key w),
               put_entry name cache_key (grant UPLOAD_URL_TIMEOUT v) v)).
  { intros ct v stv Hv Hp. unfold filesystem.get_upload_url, bind.
    rewrite (make_upload_bound _ _ _ _ _ Hv).
    rewrite _get_url_eta. f_equal. by apply _get_url_prefix. }
  split; [by apply (Hcall _ w st)|].
  split; [by apply bound_cache_put_entry_same|].
  split.
  - intros dsk. by rewrite (Hcall _ (with_disk dsk w) st).
  - intros d ct'.
    pose proof (bound_cache_put_entry_same w name st cache_key
      (grant UPLOAD_URL_TIMEOUT w) Hb) as Hb1.
    rewrite (Hcall ct' (elapse d w1) _ (bound_cache_elapse _ _ _ d Hb1) eq_refl).
    f_equal. unfold w1. by rewrite put_entry_twice.
Qed.

(** C8. When the content file of a key is not on the disk,
    [get_download_url] returns the empty text and hands back the world it was
    given: no cache instance has gained, lost or changed an entry. *)
Theorem get_download_url_absent_no_grant key (w : world) p :
  fst (filesystem._get_file_path (_get_key_name key) w) = Ok p ->
  disk w p = false ->
  filesystem.get_download_url key w = (Ok "", w)
  /\ caches (snd (filesystem.get_download_url key w)) = caches w.
Proof.
  intros Hp Hd. by rewrite (get_download_url_absent key w p Hp Hd).
Qed.

(** C10. [get_upload_url] does not look at its content type: two calls that
    differ only there return the same URL and leave the same world. *)
Theorem get_upload_url_ignores_content_type key content_type1 content_type2 (w : world) :
  filesystem.get_upload_url key content_type1 w
  = filesystem.get_upload_url key content_type2 w.
Proof. reflexivity. Qed.

(** C6. With [ORA2_FILEUPLOAD_ROOT] undefined or empty, every operation
    that resolves a path raises [FileUploadInternalError]; with
    [ORA2_FILEUPLOAD_CACHE_NAME] undefined, [get_cache] and every grant
    operation raise [FileUploadInternalError], so a check never answers
    that the grant is absent. The world is left as it was. *)
Theorem missing_configuration_raises key content_type k t (w : world) :
  (ORA2_FILEUPLOAD_ROOT (settings w) = None \/ ORA2_FILEUPLOAD_ROOT (settings w) = Some "" ->
   let e := FileUploadInternalError "Undefined file upload root directory setting" in
   filesystem._get_root_directory_path w = (Raise e, w)
   /\ filesystem._get_bucket_path w = (Raise e, w)
   /\ filesystem._get_data_path k w = (Raise e, w)
   /\ filesystem._get_file_path k w = (Raise e, w)
   /\ filesystem.get_download_url key w = (Raise e, w))
  /\ (ORA2_FILEUPLOAD_CACHE_NAME (settings w) = None ->
      let e := FileUploadInternalError "Undefined cache backend for file upload" in
      filesystem.get_cache w = (Raise e, w)
      /\ filesystem.make_upload_url_available k t w = (Raise e, w)
      /\ filesystem.make_download_url_available k t w = (Raise e, w)
      /\ filesystem.is_upload_url_available k w = (Raise e, w)
      /\ filesystem.is_download_url_available k w = (Raise e, w)
      /\ filesystem.get_upload_url key content_type w = (Raise e, w)
      /\ (forall p,
            fst (filesystem._get_file_path (_get_key_name key) w) = Ok p ->
            disk w p = true ->
            filesystem.get_download_url key w = (Raise e, w))).
Proof.
  split.
  - intros Hroot e.
    assert (Hr : filesystem._get_root_directory_path w = (Raise e, w)).
    { unfold filesystem._get_root_directory_path. py_unfold.
      by destruct Hroot as [-> | ->]. }
    assert (Hb : filesystem._get_bucket_path w = (Raise e, w)).
    { unfold filesystem._get_bucket_path, bind. by rewrite Hr. }
    assert (Hf : forall k', filesystem._get_file_path k' w = (Raise e, w)).
    { intros k'. unfold filesystem._get_file_path, filesystem._get_data_path, bind.
      by rewrite Hb. }
    repeat split; try done.
    + unfold filesystem._get_data_path, bind. by rewrite Hb.
    + apply get_download_url_raise. by rewrite Hf.
  - intros Hname e.
    pose proof (get_cache_undefined w Hname) as Hc.
    assert (Hc' : fst (filesystem.get_cache w) = Raise e) by by rewrite Hc.
    split; [done|].
    split; [by apply make_upload_unbound|].
    split; [by apply make_download_unbound|].
    split; [by apply is_upload_unbound|].
    split; [by apply is_download_unbound|].
    split.
    + unfold filesystem.get_upload_url, bind.
      by rewrite (make_upload_unbound _ _ _ _ Hc').
    + intros p Hp Hd. rewrite (get_download_url_present key w p Hp Hd).
      unfold bind. by rewrite (make_download_unbound _ _ _ _ Hc').
Qed.

End Gate.

(** C3. With a cache bound, a check made [d] seconds after
    [make_upload_url_available k t] answers [True] when [d < t] and [False]
    when [t < d], and so does the download check after
    [make_download_url_available k t]. *)
Theorem grant_available_until_timeout k t d (w : world) name st :
  bound_cache w name st ->
  let wu := snd (filesystem.make_upload_url_available k t w) in
  let wd := snd (filesystem.make_download_url_available k t w) in
  (d < t ->
     fst (filesystem.is_upload_url_available k (elapse d wu)) = Ok true
     /\ fst (filesystem.is_download_url_available k (elapse d wd)) = Ok true)
  /\ (t < d ->
     fst (filesystem.is_upload_url_available k (elapse d wu)) = Ok false
     /\ fst (filesystem.is_download_url_available k (elapse d wd)) = Ok false).
Proof.
  intros Hb wu wd. unfold wu, wd.
  rewrite (is_upload_after_grant k t d w name st Hb).
  rewrite (is_download_after_grant k t d w name st Hb).
  split; intros Hd.
  - by rewrite bool_decide_eq_true_2.
  - rewrite bool_decide_eq_false_2; [done|lia].
Qed.

(** C7. The entry of an upload grant is stored under ["upload/" + key_name]
    and that of a download grant under ["download/" + key_name]. Whatever the
    two key names, a download check answers the same before and after an
    upload grant, and an upload check the same before and after a download
    grant, at any later time: a grant for one direction never turns the check
    for the other direction to [True]. *)
Theorem upload_and_download_grants_independent k k' t d (w : world) :
  filesystem.get_upload_cache_key k = "upload/" +:+ k
  /\ filesystem.get_download_cache_key k = "download/" +:+ k
  /\ fst (filesystem.is_download_url_available k'
            (elapse d (snd (filesystem.make_upload_url_available k t w))))
     = fst (filesystem.is_download_url_available k' (elapse d w))
  /\ fst (filesystem.is_upload_url_available k'
            (elapse d (snd (filesystem.make_download_url_available k t w))))
     = fst (filesystem.is_upload_url_available k' (elapse d w)).
Proof.
  split; [done|]. split; [done|].
  split; [apply upload_grant_frames_download|apply download_grant_frames_upload].
Qed.

(* ===================================================================== *)
(** * Key addressing *)
(* ===================================================================== *)

Lemma endswith_append (c : ascii) (a b : string) :
  b ≠ "" -> pystr.endswith c (a +:+ b) = pystr.endswith c b.
Proof.
  intros Hb. induction a as [|d a IH]; [done|].
  change (String d a +:+ b) with (String d (a +:+ b)). simpl.
  destruct (a +:+ b) eqn:Hab; [|done].
  apply is_empty_true in Hab. rewrite append_is_empty in Hab.
  apply andb_true_iff in Hab as [_ Hab]. by apply is_empty_true in Hab.
Qed.

Lemma endswith_no_sep (c : ascii) (s : string) :
  pystr.contains c s = false -> pystr.endswith c s = false.
Proof.
  induction s as [|d s IH]; [done|]. simpl.
  destruct (Ascii.eqb d c); [done|]. intros Hs. destruct s; [done|]. by apply IH.
Qed.

Lemma join_relative (a b : string) :
  a ≠ "" -> pystr.endswith "/" a = false -> pystr.startswith "/" b = false ->
  posixpath.join a b = a +:+ "/" +:+ b.
Proof.
  intros Ha He Hb. unfold posixpath.join, posixpath.sep. rewrite Hb, He.
  apply is_empty_false in Ha. by rewrite Ha.
Qed.



Section Addressing.
Context `{BaseBackend}.



(** C5, as the code has it. The content of a key name lies in the file
    [content] of a directory of its own: for a root directory and a bucket
    name that make an absolute path in normal form, and a key name that is a
    relative path without a closing slash, the location is
    [root/bucket/key_name/content]. The directory is named by the whole key
    name, the ['|'] and the filename of a composite key included. *)
Theorem file_path_layout root bucket key_name (w : world) :
  ORA2_FILEUPLOAD_ROOT (settings w) = Some root ->
  root ≠ "" ->
  get_bucket_name = Ok bucket ->
  bucket ≠ "" ->
  pystr.contains "/" bucket = false ->
  posixpath.abspath (cwd w) (posixpath.join root bucket) = root +:+ "/" +:+ bucket ->
  key_name ≠ "" ->
  pystr.startswith "/" key_name = false ->
  pystr.endswith "/" key_name = false ->
  filesystem._get_file_path key_name w
  = (Ok (root +:+ "/" +:+ bucket +:+ "/" +:+ key_name +:+ "/" +:+ "content"), w).
Proof.
  intros Hroot Hr Hbucket Hb Hbs Hnorm Hk Hks Hke.
  unfold filesystem._get_file_path, filesystem._get_data_path,
    filesystem._get_bucket_path, filesystem._get_root_directory_path.
  py_unfold. rewrite Hroot. apply is_empty_false in Hr. rewrite Hr, Hbucket, Hnorm.
  f_equal. f_equal.
  assert (Hrb : pystr.endswith "/" (root +:+ "/" +:+ bucket) = false).
  { rewrite <- append_assoc. rewrite endswith_append by done. by apply endswith_no_sep. }
  assert (Hrb' : root +:+ "/" +:+ bucket ≠ "").
  { intros He. apply is_empty_true in He. rewrite append_is_empty in He.
    by rewrite Hr in He. }
  rewrite (join_relative _ key_name Hrb' Hrb Hks).
  rewrite join_relative; [by rewrite !append_assoc| | |done].
  - intros He. apply is_empty_true in He. rewrite !append_is_empty in He.
    by rewrite Hr in He.
  - rewrite <- !append_assoc. by rewrite endswith_append.
Qed.

End Addressing.

(* ===================================================================== *)
(** * The submission ledger *)
(* ===================================================================== *)

Section Ledger.
Import submissions.

Implicit Types (t : string * string * string) (tbl : list StudentItem).

Lemma find_row_None t tbl : find_row t tbl = None <-> rows_with t tbl = [].
Proof.
  unfold rows_with. induction tbl as [|r tbl IH]; [done|].
  simpl. rewrite filter_cons. case_bool_decide as Hr.
  - rewrite decide_True by done. done.
  - rewrite decide_False by done. rewrite <- IH.
    destruct (find_row t tbl); done.
Qed.

Lemma find_row_Some t tbl i :
  find_row t tbl = Some i ->
  exists r, tbl !! i = Some r /\ unique_together r = t.
Proof.
  revert i. induction tbl as [|r tbl IH]; [done|]. intros i. simpl.
  case_bool_decide as Hr.
  - intros [= <-]. by exists r.
  - destruct (find_row t tbl) as [j|]; [|done]. simpl.
    intros [= <-]. by apply IH.
Qed.

Lemma find_row_is_Some t tbl r :
  r ∈ tbl -> unique_together r = t -> is_Some (find_row t tbl).
Proof.
  intros Hin Hr. destruct (find_row t tbl) eqn:Hf; [by eexists|].
  apply find_row_None in Hf. unfold rows_with in Hf.
  assert (r ∈ filter (fun r => unique_together r = t) tbl) as Hm
    by by apply list_elem_of_filter.
  rewrite Hf in Hm. by apply elem_of_nil in Hm.
Qed.

Lemma rows_with_snoc t tbl s :
  rows_with t (tbl ++ [s])
  = rows_with t tbl ++ (if decide (unique_together s = t) then [s] else []).
Proof. unfold rows_with. rewrite filter_app. f_equal. Qed.

Lemma insert_student_item_unique s (l : ledger) :
  unique_triples l -> unique_triples (snd (insert_student_item s l)).
Proof.
  intros Hu t. unfold insert_student_item.
  destruct (find_row (unique_together s) (student_items l)) eqn:Hf; simpl; [apply Hu|].
  rewrite rows_with_snoc, length_app. apply find_row_None in Hf.
  destruct (decide (unique_together s = t)) as [<-|Hne]; simpl.
  - by rewrite Hf.
  - specialize (Hu t). lia.
Qed.

Lemma run_unique o (l : ledger) :
  unique_triples l -> unique_triples (snd (run o l)).
Proof.
  intros Hu. destruct o as [s|s|s|s]; simpl.
  - by apply insert_student_item_unique.
  - unfold get_or_create_student_item.
    destruct (find_row _ _) eqn:Hf; [done|]. by apply insert_student_item_unique.
  - unfold create_submission. by case_bool_decide.
  - unfold create_score. by case_bool_decide.
Qed.

Lemma run_all_unique os (l : ledger) :
  unique_triples l -> unique_triples (run_all os l).
Proof.
  revert l. induction os as [|o os IH]; intros l Hu; [done|].
  simpl. apply IH. by apply run_unique.
Qed.

Lemma empty_ledger_unique : unique_triples empty_ledger.
Proof. intros t. simpl. lia. Qed.

(** Once a [StudentItem] with some triple has been created, by either
    operation, the table holds a row with that triple. *)
Lemma created_row_found s (l : ledger) :
  is_Some (find_row (unique_together s)
             (student_items (snd (insert_student_item s l))))
  /\ is_Some (find_row (unique_together s)
             (student_items (snd (get_or_create_student_item s l)))).
Proof.
  assert (Hins : is_Some (find_row (unique_together s)
             (student_items (snd (insert_student_item s l))))).
  { unfold insert_student_item.
    destruct (find_row (unique_together s) (student_items l)) eqn:Hf; simpl.
    - rewrite Hf. by eexists.
    - apply (find_row_is_Some _ _ s); [|done].
      apply elem_of_app. right. by apply list_elem_of_singleton. }
  split; [done|]. unfold get_or_create_student_item.
  destruct (find_row (unique_together s) (student_items l)) eqn:Hf; [|done].
  simpl. rewrite Hf. by eexists.
Qed.

(** C9. The ledger never holds two [StudentItem] rows with the same
    (course_id, student_id, item_id): every operation keeps it so, and so
    does any run of operations from the empty ledger. Creating a
    [StudentItem] whose triple is taken leaves the ledger as it was:
    inserting it is refused with [IntegrityError], and create-or-fetch hands
    back the row that is there; that is the case for a second creation with
    the triple of a first. *)
Theorem student_item_triple_unique :
  (forall o l, unique_triples l -> unique_triples (snd (run o l)))
  /\ (forall os, unique_triples (run_all os empty_ledger))
  /\ (forall s l i,
        find_row (unique_together s) (student_items l) = Some i ->
        insert_student_item s l = (Raise IntegrityError, l)
        /\ get_or_create_student_item s l = (Ok i, l)
        /\ exists r, student_items l !! i = Some r
                     /\ unique_together r = unique_together s)
  /\ (forall s s' l l1,
        unique_together s' = unique_together s ->
        l1 = snd (insert_student_item s l) \/ l1 = snd (get_or_create_student_item s l) ->
        insert_student_item s' l1 = (Raise IntegrityError, l1)
        /\ snd (get_or_create_student_item s' l1) = l1
        /\ is_Ok (fst (get_or_create_student_item s' l1)) = true).
Proof.
  split; [intros o l; apply run_unique|].
  split; [intros os; apply run_all_unique, empty_ledger_unique|].
  assert (Htaken : forall s l i,
    find_row (unique_together s) (student_items l) = Some i ->
    insert_student_item s l = (Raise IntegrityError, l)
    /\ get_or_create_student_item s l = (Ok i, l)).
  { intros s l i Hf. unfold get_or_create_student_item, insert_student_item.
    by rewrite Hf. }
  split.
  - intros s l i Hf. destruct (Htaken s l i Hf) as [Hi Hg].
    split; [done|]. split; [done|]. by apply find_row_Some.
  - intros s s' l l1 Ht Hl1.
    assert (Hsome : is_Some (find_row (unique_together s') (student_items l1))).
    { rewrite Ht. destruct (created_row_found s l) as [H1 H2].
      by destruct Hl1 as [-> | ->]. }
    destruct Hsome as [i Hf]. destruct (Htaken s' l1 i Hf) as [Hi Hg].
    split; [done|]. by rewrite Hg.
Qed.

End Ledger.

(* ===================================================================== *)
(** * The statements at work on the example deployment *)
(* ===================================================================== *)

Lemma get_download_url_empty_iff_absent_witness :
  fst (@filesystem.get_download_url example_backend "att2" example_world) = Ok ""
  /\ @filesystem.get_download_url example_backend "att1" example_world
     = (Ok "/openassessment/storage/submissions_attachments/att1/",
        put_entry "ora2-storage" "download/submissions_attachments/att1"
          {| cache.value := 1; cache.expires := 4600 |} example_world).
Proof.
  destruct (@get_download_url_empty_iff_absent example_backend "att2" example_world)
    as [[_ Habsent] _].
  destruct (@get_download_url_empty_iff_absent example_backend "att1" example_world)
    as [_ Hpresent].
  split.
  - apply Habsent.
    exists "/edx/var/ora2/openassessment/submissions_attachments/att2/content".
    split; vm_compute; reflexivity.
  - rewrite (Hpresent "/edx/var/ora2/openassessment/submissions_attachments/att1/content"
               "ora2-storage" ∅); [reflexivity| | |]; vm_compute; auto.
Defined.

Lemma get_upload_url_registers_grant_witness :
  bound_cache example_world "ora2-storage" ∅
  /\ @filesystem.get_upload_url example_backend "att2" "image/png" example_world
     = (Ok "/openassessment/storage/submissions_attachments/att2/",
        put_entry "ora2-storage" "upload/submissions_attachments/att2"
          {| cache.value := 1; cache.expires := 4600 |} example_world).
Proof.
  assert (Hb : bound_cache example_world "ora2-storage" ∅) by (split; reflexivity).
  split; [exact Hb|].
  destruct (@get_upload_url_registers_grant example_backend "att2" "image/png"
              example_world "ora2-storage" ∅ Hb) as [Hcall _].
  rewrite Hcall. reflexivity.
Defined.

Lemma get_download_url_absent_no_grant_witness :
  fst (@filesystem._get_file_path example_backend
         (@_get_key_name example_backend "att2") example_world)
  = Ok "/edx/var/ora2/openassessment/submissions_attachments/att2/content"
  /\ disk example_world
       "/edx/var/ora2/openassessment/submissions_attachments/att2/content" = false
  /\ @filesystem.get_download_url example_backend "att2" example_world
     = (Ok "", example_world).
Proof.
  assert (Hp : fst (@filesystem._get_file_path example_backend
                      (@_get_key_name example_backend "att2") example_world)
               = Ok "/edx/var/ora2/openassessment/submissions_attachments/att2/content")
    by (vm_compute; reflexivity).
  assert (Hd : disk example_world
                 "/edx/var/ora2/openassessment/submissions_attachments/att2/content"
               = false)
    by (vm_compute; reflexivity).
  split; [exact Hp|]. split; [exact Hd|].
  exact (proj1 (@get_download_url_absent_no_grant example_backend "att2"
                  example_world _ Hp Hd)).
Defined.

Lemma missing_configuration_raises_witness :
  ORA2_FILEUPLOAD_ROOT (settings bare_world) = None
  /\ ORA2_FILEUPLOAD_CACHE_NAME (settings bare_world) = None
  /\ @filesystem.get_download_url example_backend "att1" bare_world
     = (Raise (FileUploadInternalError "Undefined file upload root directory setting"),
        bare_world)
  /\ filesystem.is_upload_url_available "submissions_attachments/att1" bare_world
     = (Raise (FileUploadInternalError "Undefined cache backend for file upload"),
        bare_world).
Proof.
  destruct (@missing_configuration_raises example_backend "att1" "image/png"
              "submissions_attachments/att1" 60 bare_world) as [Hroot Hcache].
  split; [reflexivity|]. split; [reflexivity|]. split.
  - apply (Hroot (or_introl eq_refl)).
  - apply (Hcache eq_refl).
Defined.

Lemma grant_available_until_timeout_witness :
  bound_cache example_world "ora2-storage" ∅
  /\ fst (filesystem.is_upload_url_available "u1-problem7-att1"
            (elapse 30 (snd (filesystem.make_upload_url_available
                               "u1-problem7-att1" 60 example_world))))
     = Ok true
  /\ fst (filesystem.is_upload_url_available "u1-problem7-att1"
            (elapse 61 (snd (filesystem.make_upload_url_available
                               "u1-problem7-att1" 60 example_world))))
     = Ok false.
Proof.
  assert (Hb : bound_cache example_world "ora2-storage" ∅) by (split; reflexivity).
  split; [exact Hb|]. split.
  - apply (grant_available_until_timeout "u1-problem7-att1" 60 30
             example_world "ora2-storage" ∅ Hb). lia.
  - apply (grant_available_until_timeout "u1-problem7-att1" 60 61
             example_world "ora2-storage" ∅ Hb). lia.
Defined.


Lemma file_path_layout_witness :
  ORA2_FILEUPLOAD_ROOT (settings example_world) = Some "/edx/var/ora2"
  /\ @get_bucket_name example_backend = Ok "openassessment"
  /\ posixpath.abspath (cwd example_world)
       (posixpath.join "/edx/var/ora2" "openassessment")
     = "/edx/var/ora2/openassessment"
  /\ @filesystem._get_file_path example_backend "abc|def.png" example_world
     = (Ok "/edx/var/ora2/openassessment/abc|def.png/content", example_world).
Proof.
  split; [reflexivity|]. split; [reflexivity|]. split; [vm_compute; reflexivity|].
  apply (@file_path_layout example_backend "/edx/var/ora2" "openassessment"
           "abc|def.png" example_world);
    try reflexivity; try discriminate.
Defined.

(** The location that the code gives to the key name ["abc|def.png"] keeps
    the filename part; the location of the specification drops it. *)
Lemma file_path_keeps_filename_part :
  fst (@filesystem._get_file_path example_backend "abc|def.png" example_world)
  = Ok "/edx/var/ora2/openassessment/abc|def.png/content"
  /\ spec_file_path "/edx/var/ora2" "openassessment" "abc|def.png"
     = "/edx/var/ora2/openassessment/abc/content"
  /\ fst (@filesystem._get_file_path example_backend "abc|def.png" example_world)
     ≠ Ok (spec_file_path "/edx/var/ora2" "openassessment" "abc|def.png").
Proof.
  split; [vm_compute; reflexivity|]. split; [vm_compute; reflexivity|].
  vm_compute. discriminate.
Qed.

Lemma student_item_triple_unique_witness :
  let s := {| submissions.student_id := "u1"; submissions.course_id := "c1";
              submissions.item_id := "problem7"; submissions.item_type := "openassessment" |} in
  let l1 := snd (submissions.insert_student_item s submissions.empty_ledger) in
  submissions.unique_triples submissions.empty_ledger
  /\ submissions.unique_triples l1
  /\ submissions.find_row (submissions.unique_together s) (submissions.student_items l1)
     = Some 0%nat
  /\ submissions.insert_student_item s l1 = (Raise IntegrityError, l1)
  /\ submissions.get_or_create_student_item s l1 = (Ok 0%nat, l1).
Proof.
  intros s l1.
  destruct student_item_triple_unique as (Hrun & _ & Htaken & _).
  assert (Hu : submissions.unique_triples submissions.empty_ledger)
    by (intros t; simpl; lia).
  assert (Hf : submissions.find_row (submissions.unique_together s)
                 (submissions.student_items l1) = Some 0%nat)
    by (vm_compute; reflexivity).
  split; [exact Hu|].
  split; [exact (Hrun (submissions.InsertStudentItem s) submissions.empty_ledger Hu)|].
  split; [exact Hf|].
  destruct (Htaken s l1 0%nat Hf) as (Hi & Hg & _). split; [exact Hi|exact Hg].
Defined.

(* ===================================================================== *)
(** * More on text *)
(* ===================================================================== *)

Lemma length_append (a b : string) :
  String.length (a +:+ b) = (String.length a + String.length b)%nat.
Proof.
  induction a as [|d a IH]; [done|].
  change (String d a +:+ b) with (String d (a +:+ b)). simpl. by rewrite IH.
Qed.

Lemma append_cancel_l (a b c : string) : a +:+ b = a +:+ c -> b = c.
Proof.
  induction a as [|d a IH]; [done|].
  change (String d a +:+ b) with (String d (a +:+ b)).
  change (String d a +:+ c) with (String d (a +:+ c)).
  intros [= Hs]. by apply IH.
Qed.

Lemma append_cancel_r (a b s : string) : a +:+ s = b +:+ s -> a = b.
Proof.
  revert b. induction a as [|d a IH]; intros [|e b] Hs.
  - done.
  - apply (f_equal String.length) in Hs.
    rewrite !length_append in Hs. simpl in Hs. lia.
  - apply (f_equal String.length) in Hs.
    rewrite !length_append in Hs. simpl in Hs. lia.
  - change (String d a +:+ s) with (String d (a +:+ s)) in Hs.
    change (String e b +:+ s) with (String e (b +:+ s)) in Hs.
    injection Hs as -> Hs. f_equal. by apply IH.
Qed.

Lemma contains_append (c : ascii) (a b : string) :
  pystr.contains c (a +:+ b) = pystr.contains c a || pystr.contains c b.
Proof.
  induction a as [|d a IH]; [done|].
  change (String d a +:+ b) with (String d (a +:+ b)). simpl.
  by destruct (Ascii.eqb d c).
Qed.

Lemma endswith_snoc (c d : ascii) (a : string) :
  pystr.endswith c (a +:+ String d "") = Ascii.eqb d c.
Proof. by rewrite endswith_append. Qed.


(** A text that ends with [c] is its [chop] followed by [c]. *)
Lemma endswith_chop (c : ascii) (s : string) :
  pystr.endswith c s = true -> s = pystr.chop s +:+ String c "".
Proof.
  induction s as [|d s IH]; [done|]. simpl. destruct s as [|e s].
  - intros Hd. apply Ascii.eqb_eq in Hd as ->. done.
  - intros Hs. change (String d (pystr.chop (String e s)) +:+ String c "")
      with (String d (pystr.chop (String e s) +:+ String c "")).
    f_equal. by apply IH.
Qed.

Lemma length_pos_nonempty (s : string) : (1 <= String.length s)%nat <-> s ≠ "".
Proof. destruct s; simpl; split; intros; try done; lia. Qed.

(* ===================================================================== *)
(** * Routes *)
(* ===================================================================== *)

(** The tail [.+/$] on a candidate: what it asks of the text before the
    closing slash. *)
Lemma match_dot_plus_slash_snoc (g : string) :
  urls.match_dot_plus_slash (g +:+ "/")
  = negb (pystr.is_empty g) && negb (pystr.contains urls.newline g).
Proof.
  destruct g as [|d g]; [reflexivity|].
  unfold urls.match_dot_plus_slash.
  rewrite (endswith_snoc "/" "/" (String d g)), contains_append, length_append.
  rewrite bool_decide_eq_true_2 by (simpl; lia).
  change (pystr.contains urls.newline "/") with false.
  rewrite orb_false_r, andb_true_r. done.
Qed.


(** What a group of [resolve] is, read off the path. *)
Lemma group_dot_plus_slash_inv (s g : string) :
  urls.group_dot_plus_slash s = Some g ->
  urls.upto_dollar s = g +:+ "/" /\ g ≠ "" /\ pystr.contains urls.newline g = false.
Proof.
  unfold urls.group_dot_plus_slash.
  destruct (pystr.endswith "/" (urls.upto_dollar s)) eqn:He; [|done]. simpl.
  destruct (pystr.is_empty _) eqn:Hg; [done|]. simpl.
  destruct (pystr.contains _ _) eqn:Hn; [done|]. simpl.
  intros [= <-]. split; [by apply endswith_chop|].
  split; [by apply is_empty_false|done].
Qed.



Lemma partition_composite (sk rest : string) :
  pystr.contains "|" sk = false ->
  pystr.partition "|" (sk +:+ "|" +:+ rest) = (sk, Some rest).
Proof.
  intros Hsk. change ("|" +:+ rest) with (String "|" rest).
  by apply partition_first_sep.
Qed.

Section Routes.
Context `{BaseBackend}.




(** X3. [_get_url] returns exactly when the storage key is not empty and, for
    a bare key name, has no line break, or, for a composite key name, the
    filename is not empty and has no line break. Otherwise it raises
    [NoReverseMatch], and it raises nothing else. *)
Theorem _get_url_succeeds_iff key (w : world) :
  is_Ok (fst (filesystem._get_url key w))
  = match pystr.partition "|" (_get_key_name key) with
    | (sk, None) =>
        negb (pystr.is_empty sk) && negb (pystr.contains urls.newline sk)
    | (sk, Some fn) =>
        negb (pystr.is_empty sk)
        && (negb (pystr.is_empty fn) && negb (pystr.contains urls.newline fn))
    end
  /\ forall e, fst (filesystem._get_url key w) = Raise e -> e = NoReverseMatch.
Proof.
  unfold filesystem._get_url, pystr.split1.
  destruct (pystr.partition "|" (_get_key_name key)) as [sk [fn|]] eqn:Hp;
    apply partition_inv in Hp as [Hsk _]; unfold urls.reverse; py_unfold; simpl.
  - unfold urls.match_key_filename.
    rewrite (partition_composite sk (fn +:+ "/") Hsk), match_dot_plus_slash_snoc.
    destruct (negb (pystr.is_empty sk) && _); simpl; split; try done.
    by intros e [= <-].
  - unfold urls.match_key. rewrite match_dot_plus_slash_snoc.
    destruct (negb (pystr.is_empty sk) && _); simpl; split; try done.
    by intros e [= <-].
Qed.


End Routes.

(** X5. The keywords that [urlpatterns] hands to the view: the key is never
    empty; on the composite route the key has no ['|'] and the filename is
    neither empty nor broken over lines, and on the bare route the key has no
    line break. *)
Theorem resolve_keywords path k f :
  urls.resolve path = Some (k, f) ->
  k ≠ ""
  /\ match f with
     | Some fn =>
         pystr.contains "|" k = false /\ fn ≠ ""
         /\ pystr.contains urls.newline fn = false
     | None => pystr.contains urls.newline k = false
     end.
Proof.
  unfold urls.resolve, urls.resolve_key_filename, urls.resolve_key.
  destruct (pystr.partition "|" path) as [a [rest|]] eqn:Hp;
    apply partition_inv in Hp as [Ha _].
  - destruct (pystr.is_empty a) eqn:Hea.
    + destruct (urls.group_dot_plus_slash path) as [g|] eqn:Hg; [|done].
      intros [= <- <-]. by apply group_dot_plus_slash_inv in Hg as (_ & ? & ?).
    + destruct (urls.group_dot_plus_slash rest) as [g|] eqn:Hg.
      * intros [= <- <-]. apply group_dot_plus_slash_inv in Hg as (_ & ? & ?).
        split; [by apply is_empty_false|done].
      * destruct (urls.group_dot_plus_slash path) as [g|] eqn:Hg'; [|done].
        intros [= <- <-]. by apply group_dot_plus_slash_inv in Hg' as (_ & ? & ?).
  - destruct (urls.group_dot_plus_slash path) as [g|] eqn:Hg; [|done].
    intros [= <- <-]. by apply group_dot_plus_slash_inv in Hg as (_ & ? & ?).
Qed.


(* ===================================================================== *)
(** * More on grants *)
(* ===================================================================== *)

Lemma upload_key_injective (k k' : string) :
  filesystem.get_upload_cache_key k = filesystem.get_upload_cache_key k' -> k = k'.
Proof. apply append_cancel_l. Qed.

Lemma download_key_injective (k k' : string) :
  filesystem.get_download_cache_key k = filesystem.get_download_cache_key k' -> k = k'.
Proof. apply append_cancel_l. Qed.

(** X7. A cache name that is defined but names no configured cache, the empty
    name included, makes [get_cache] raise [InvalidCacheBackendError]; the
    four grant functions and [get_upload_url] raise it in turn and leave the
    world as it was. *)
Theorem unconfigured_cache_raises `{BaseBackend} key content_type k t name (w : world) :
  ORA2_FILEUPLOAD_CACHE_NAME (settings w) = Some name ->
  caches w !! name = None ->
  let e := InvalidCacheBackendError name in
  filesystem.get_cache w = (Raise e, w)
  /\ filesystem.make_upload_url_available k t w = (Raise e, w)
  /\ filesystem.make_download_url_available k t w = (Raise e, w)
  /\ filesystem.is_upload_url_available k w = (Raise e, w)
  /\ filesystem.is_download_url_available k w = (Raise e, w)
  /\ filesystem.get_upload_url key content_type w = (Raise e, w).
Proof.
  intros Hn Hc e.
  assert (Hg : filesystem.get_cache w = (Raise e, w)).
  { unfold filesystem.get_cache. py_unfold. by rewrite Hn, Hc. }
  assert (Hg' : fst (filesystem.get_cache w) = Raise e) by by rewrite Hg.
  split; [done|].
  split; [by apply make_upload_unbound|].
  split; [by apply make_download_unbound|].
  split; [by apply is_upload_unbound|].
  split; [by apply is_download_unbound|].
  unfold filesystem.get_upload_url, bind. by rewrite (make_upload_unbound _ _ _ _ Hg').
Qed.

(** X8. Grants of one direction for different key names do not touch each
    other: the check for [k'] answers the same before and after a grant for
    another key name [k], at any later time. *)
Theorem grants_of_other_keys_independent k k' t d (w : world) :
  k ≠ k' ->
  fst (filesystem.is_upload_url_available k'
         (elapse d (snd (filesystem.make_upload_url_available k t w))))
  = fst (filesystem.is_upload_url_available k' (elapse d w))
  /\ fst (filesystem.is_download_url_available k'
            (elapse d (snd (filesystem.make_download_url_available k t w))))
     = fst (filesystem.is_download_url_available k' (elapse d w)).
Proof.
  intros Hk. destruct (get_cache_cases w) as [(name & st & Hb)|[e He]].
  - rewrite (make_upload_bound _ _ _ _ _ Hb), (make_download_bound _ _ _ _ _ Hb).
    simpl. split.
    + pose proof (bound_cache_put_entry_same w name st
        (filesystem.get_upload_cache_key k) (grant t w) Hb) as Hb'.
      rewrite (is_upload_bound _ _ _ _ (bound_cache_elapse _ _ _ d Hb')).
      rewrite (is_upload_bound _ _ _ _ (bound_cache_elapse _ _ _ d Hb)).
      simpl. rewrite cache_get_insert_ne; [done|].
      intros Heq. by apply upload_key_injective in Heq.
    + pose proof (bound_cache_put_entry_same w name st
        (filesystem.get_download_cache_key k) (grant t w) Hb) as Hb'.
      rewrite (is_download_bound _ _ _ _ (bound_cache_elapse _ _ _ d Hb')).
      rewrite (is_download_bound _ _ _ _ (bound_cache_elapse _ _ _ d Hb)).
      simpl. rewrite cache_get_insert_ne; [done|].
      intros Heq. by apply download_key_injective in Heq.
  - by rewrite (make_upload_unbound _ _ _ _ He), (make_download_unbound _ _ _ _ He).
Qed.

Section Gate_composition.
Context `{BaseBackend}.

Lemma get_upload_url_world key content_type (w : world) :
  snd (filesystem.get_upload_url key content_type w)
  = snd (filesystem.make_upload_url_available (_get_key_name key) UPLOAD_URL_TIMEOUT w).
Proof.
  unfold filesystem.get_upload_url, bind.
  destruct (filesystem.make_upload_url_available _ _ w) as [[[]|e] w']; [|done].
  apply _get_url_world.
Qed.

Lemma get_download_url_world key (w : world) :
  snd (filesystem.get_download_url key w) = w
  \/ snd (filesystem.get_download_url key w)
     = snd (filesystem.make_download_url_available (_get_key_name key)
              DOWNLOAD_URL_TIMEOUT w).
Proof.
  destruct (fst (filesystem._get_file_path (_get_key_name key) w)) as [p|e] eqn:Hp.
  - destruct (disk w p) eqn:Hd.
    + right. rewrite (get_download_url_present key w p Hp Hd). unfold bind.
      destruct (filesystem.make_download_url_available _ _ w) as [[[]|e] w']; [|done].
      apply _get_url_world.
    + left. by rewrite (get_download_url_absent key w p Hp Hd).
  - left. by rewrite (get_download_url_raise key w e Hp).
Qed.

(** X9. Asking for a download URL never changes what an upload check answers,
    for any key name and at any later time, and asking for an upload URL never
    changes what a download check answers. *)
Theorem url_requests_keep_other_direction key content_type k' d (w : world) :
  fst (filesystem.is_upload_url_available k'
         (elapse d (snd (filesystem.get_download_url key w))))
  = fst (filesystem.is_upload_url_available k' (elapse d w))
  /\ fst (filesystem.is_download_url_available k'
            (elapse d (snd (filesystem.get_upload_url key content_type w))))
     = fst (filesystem.is_download_url_available k' (elapse d w)).
Proof.
  split.
  - destruct (get_download_url_world key w) as [-> | ->]; [done|].
    apply download_grant_frames_upload.
  - rewrite get_upload_url_world. apply upload_grant_frames_download.
Qed.

(** X10. A URL that [get_upload_url] returns is authorized: the upload check
    for the key name answers [True] for the next [UPLOAD_URL_TIMEOUT]
    seconds. *)
Theorem upload_url_is_authorized key content_type u d (w : world) :
  fst (filesystem.get_upload_url key content_type w) = Ok u ->
  d < UPLOAD_URL_TIMEOUT ->
  fst (filesystem.is_upload_url_available (_get_key_name key)
         (elapse d (snd (filesystem.get_upload_url key content_type w))))
  = Ok true.
Proof.
  intros Hu Hd. rewrite get_upload_url_world.
  destruct (get_cache_cases w) as [(name & st & Hb)|[e He]].
  - rewrite (is_upload_after_grant _ _ _ _ _ _ Hb). by rewrite bool_decide_eq_true_2.
  - unfold filesystem.get_upload_url, bind in Hu.
    by rewrite (make_upload_unbound _ _ _ _ He) in Hu.
Qed.

(** X11. A URL that [get_download_url] returns, the empty text apart, is
    authorized: the download check for the key name answers [True] for the
    next [DOWNLOAD_URL_TIMEOUT] seconds. *)
Theorem download_url_is_authorized key u d (w : world) :
  fst (filesystem.get_download_url key w) = Ok u ->
  u ≠ "" ->
  d < DOWNLOAD_URL_TIMEOUT ->
  fst (filesystem.is_download_url_available (_get_key_name key)
         (elapse d (snd (filesystem.get_download_url key w))))
  = Ok true.
Proof.
  intros Hu Hne Hd.
  destruct (fst (filesystem._get_file_path (_get_key_name key) w)) as [p|e] eqn:Hp.
  - destruct (disk w p) eqn:Hdisk.
    + rewrite (get_download_url_present key w p Hp Hdisk) in Hu |- *.
      unfold bind in Hu |- *.
      destruct (get_cache_cases w) as [(name & st & Hb)|[e He]].
      * pose proof (is_download_after_grant (_get_key_name key) DOWNLOAD_URL_TIMEOUT
                      d w name st Hb) as Hchk.
        destruct (filesystem.make_download_url_available _ _ w) as [[[]|e] w'];
          simpl in Hchk; [|done].
        rewrite _get_url_world. rewrite Hchk. by rewrite bool_decide_eq_true_2.
      * by rewrite (make_download_unbound _ _ _ _ He) in Hu.
    + rewrite (get_download_url_absent key w p Hp Hdisk) in Hu.
      simpl in Hu. by injection Hu as <-.
  - by rewrite (get_download_url_raise key w e Hp) in Hu.
Qed.

(** X12. The download URL of a key, when there is one, is also its upload
    URL. *)
Theorem download_url_is_upload_url key content_type u (w : world) :
  fst (filesystem.get_download_url key w) = Ok u ->
  u ≠ "" ->
  fst (filesystem.get_upload_url key content_type w) = Ok u.
Proof.
  intros Hu Hne.
  destruct (fst (filesystem._get_file_path (_get_key_name key) w)) as [p|e] eqn:Hp.
  - destruct (disk w p) eqn:Hdisk.
    + rewrite (get_download_url_present key w p Hp Hdisk) in Hu.
      unfold filesystem.get_upload_url. unfold bind in Hu |- *.
      destruct (get_cache_cases w) as [(name & st & Hb)|[e He]].
      * rewrite (make_download_bound _ _ _ _ _ Hb) in Hu.
        rewrite (make_upload_bound _ _ _ _ _ Hb).
        rewrite <- Hu. by apply _get_url_prefix.
      * by rewrite (make_download_unbound _ _ _ _ He) in Hu.
    + rewrite (get_download_url_absent key w p Hp Hdisk) in Hu.
      simpl in Hu. by injection Hu as <-.
  - by rewrite (get_download_url_raise key w e Hp) in Hu.
Qed.

End Gate_composition.

(* ===================================================================== *)
(** * Histories *)
(* ===================================================================== *)

Lemma is_upload_world k (w : world) :
  snd (filesystem.is_upload_url_available k w) = w.
Proof.
  destruct (get_cache_cases w) as [(name & st & Hb)|[e He]].
  - by rewrite (is_upload_bound _ _ _ _ Hb).
  - by rewrite (is_upload_unbound _ _ _ He).
Qed.

Lemma is_download_world k (w : world) :
  snd (filesystem.is_download_url_available k w) = w.
Proof.
  destruct (get_cache_cases w) as [(name & st & Hb)|[e He]].
  - by rewrite (is_download_bound _ _ _ _ Hb).
  - by rewrite (is_download_unbound _ _ _ He).
Qed.

Lemma waited_from (rs : list request) (z : Z) :
  fold_left (fun z r => match r with Wait d => z + d | _ => z end) rs z
  = z + waited rs.
Proof.
  unfold waited. revert z. induction rs as [|r rs IH]; intros z; simpl; [lia|].
  rewrite IH. rewrite (IH (match r with Wait d => 0 + d | _ => 0 end)).
  destruct r; lia.
Qed.

Lemma waited_cons (r : request) (rs : list request) :
  waited (r :: rs) = match r with Wait d => d | _ => 0 end + waited rs.
Proof. unfold waited at 1. simpl. rewrite waited_from. by destruct r. Qed.

Section Histories.
Context `{BaseBackend}.

(** A call that does not store the entry [ck] leaves it as it is, in the
    cache that stays bound, and only [Wait] moves the clock. *)
Lemma run_request_keeps_entry r ck e name st (w : world) :
  bound_cache w name st ->
  st !! ck = Some e ->
  written_key r ≠ Some ck ->
  exists st',
    bound_cache (run_request r w) name st'
    /\ st' !! ck = Some e
    /\ clock (run_request r w)
       = clock w + match r with Wait d => d | _ => 0 end.
Proof.
  intros Hb Hck Hw.
  assert (Hput : forall ck' e',
            Some ck' ≠ Some ck ->
            exists st',
              bound_cache (put_entry name ck' e' w) name st'
              /\ st' !! ck = Some e
              /\ clock (put_entry name ck' e' w) = clock w + 0).
  { intros ck' e' Hne. exists (<[ck' := e']> st).
    split; [by apply bound_cache_put_entry_same|].
    split; [|simpl; lia]. rewrite lookup_insert_ne; [done|]. congruence. }
  assert (Hsame : exists st',
            bound_cache w name st' /\ st' !! ck = Some e /\ clock w = clock w + 0).
  { exists st. split; [done|]. split; [done|]. lia. }
  destruct r as [d|k t|k t|k|k|key ct|key]; simpl in *.
  - exists st. split; [by apply bound_cache_elapse|done].
  - rewrite (make_upload_bound _ _ _ _ _ Hb). by apply Hput.
  - rewrite (make_download_bound _ _ _ _ _ Hb). by apply Hput.
  - by rewrite is_upload_world.
  - by rewrite is_download_world.
  - rewrite get_upload_url_world, (make_upload_bound _ _ _ _ _ Hb). by apply Hput.
  - destruct (get_download_url_world key w) as [-> | ->]; [done|].
    rewrite (make_download_bound _ _ _ _ _ Hb). by apply Hput.
Qed.

Lemma run_requests_keep_entry rs ck e name st (w : world) :
  bound_cache w name st ->
  st !! ck = Some e ->
  Forall (fun r => written_key r ≠ Some ck) rs ->
  exists st',
    bound_cache (run_requests rs w) name st'
    /\ st' !! ck = Some e
    /\ clock (run_requests rs w) = clock w + waited rs.
Proof.
  revert w st. induction rs as [|r rs IH]; intros w st Hb Hck Hrs.
  - exists st. split; [done|]. split; [done|]. unfold waited. simpl. lia.
  - apply Forall_cons in Hrs as [Hr Hrs].
    destruct (run_request_keeps_entry r ck e name st w Hb Hck Hr)
      as (st1 & Hb1 & Hck1 & Hc1).
    destruct (IH _ _ Hb1 Hck1 Hrs) as (st2 & Hb2 & Hck2 & Hc2).
    exists st2. split; [done|]. split; [done|].
    change (run_requests (r :: rs) w) with (run_requests rs (run_request r w)).
    rewrite Hc2, Hc1, waited_cons. lia.
Qed.

Lemma not_grants_upload k rs :
  forallb (fun r => negb (grants_upload k r)) rs = true ->
  Forall (fun r => written_key r ≠ Some (filesystem.get_upload_cache_key k)) rs.
Proof.
  intros Hrs. apply Forall_forall. intros r Hr.
  rewrite forallb_forall in Hrs. apply list_elem_of_In in Hr.
  specialize (Hrs r Hr). apply negb_true_iff in Hrs.
  destruct r as [d|k' t|k' t|k'|k'|key ct|key]; simpl in *; try done.
  - apply bool_decide_eq_false in Hrs. intros Heq.
    apply Hrs, upload_key_injective. congruence.
  - apply bool_decide_eq_false in Hrs. intros Heq.
    apply Hrs, upload_key_injective. congruence.
Qed.

Lemma not_grants_download k rs :
  forallb (fun r => negb (grants_download k r)) rs = true ->
  Forall (fun r => written_key r ≠ Some (filesystem.get_download_cache_key k)) rs.
Proof.
  intros Hrs. apply Forall_forall. intros r Hr.
  rewrite forallb_forall in Hrs. apply list_elem_of_In in Hr.
  specialize (Hrs r Hr). apply negb_true_iff in Hrs.
  destruct r as [d|k' t|k' t|k'|k'|key ct|key]; simpl in *; try done.
  - apply bool_decide_eq_false in Hrs. intros Heq.
    apply Hrs, download_key_injective. congruence.
  - apply bool_decide_eq_false in Hrs. intros Heq.
    apply Hrs, download_key_injective. congruence.
Qed.

(** X13. A grant is changed by nothing but a new grant for the same key name
    and direction. After [make_upload_url_available k t], whatever calls
    follow (checks, grants and URL requests for other key names, download
    grants and download URL requests for any key name, time going by), the
    upload check for [k] answers whether less than [t] seconds have gone by;
    and likewise for the download direction. *)
Theorem grant_outlives_other_requests k t rs (w : world) name st :
  bound_cache w name st ->
  (forallb (fun r => negb (grants_upload k r)) rs = true ->
   fst (filesystem.is_upload_url_available k
          (run_requests rs (snd (filesystem.make_upload_url_available k t w))))
   = Ok (bool_decide (waited rs < t)))
  /\ (forallb (fun r => negb (grants_download k r)) rs = true ->
      fst (filesystem.is_download_url_available k
             (run_requests rs (snd (filesystem.make_download_url_available k t w))))
      = Ok (bool_decide (waited rs < t))).
Proof.
  intros Hb.
  assert (Hdec : forall c, bool_decide
            (cache.get c (clock w + waited rs)
               (<[c := grant t w]> ∅ : gmap string cache.entry) ≠ None)
            = bool_decide (waited rs < t)).
  { intros c. rewrite cache_get_insert_eq. simpl.
    destruct (decide (waited rs < t)).
    - rewrite (bool_decide_eq_true_2 (waited rs < t)) by done.
      rewrite (bool_decide_eq_true_2 (clock w + waited rs < clock w + t)) by lia.
      by apply bool_decide_eq_true_2.
    - rewrite (bool_decide_eq_false_2 (waited rs < t)) by done.
      rewrite (bool_decide_eq_false_2 (clock w + waited rs < clock w + t)) by lia.
      apply bool_decide_eq_false_2. by intros Hn. }
  assert (Hget : forall c (st' : gmap string cache.entry) now,
            st' !! c = Some (grant t w) ->
            cache.get c now st'
            = cache.get c now (<[c := grant t w]> ∅ : gmap string cache.entry)).
  { intros c st' now Hc. unfold cache.get. by rewrite Hc, lookup_insert_eq. }
  split; intros Hrs.
  - apply not_grants_upload in Hrs.
    rewrite (make_upload_bound _ _ _ _ _ Hb).
    pose proof (bound_cache_put_entry_same w name st
      (filesystem.get_upload_cache_key k) (grant t w) Hb) as Hb1.
    destruct (run_requests_keep_entry rs _ (grant t w) name _ _ Hb1
                (lookup_insert_eq _ _ _) Hrs) as (st2 & Hb2 & Hck2 & Hc2).
    rewrite (is_upload_bound _ _ _ _ Hb2). simpl. f_equal.
    rewrite Hc2. simpl. rewrite (Hget _ _ _ Hck2). apply Hdec.
  - apply not_grants_download in Hrs.
    rewrite (make_download_bound _ _ _ _ _ Hb).
    pose proof (bound_cache_put_entry_same w name st
      (filesystem.get_download_cache_key k) (grant t w) Hb) as Hb1.
    destruct (run_requests_keep_entry rs _ (grant t w) name _ _ Hb1
                (lookup_insert_eq _ _ _) Hrs) as (st2 & Hb2 & Hck2 & Hc2).
    rewrite (is_download_bound _ _ _ _ Hb2). simpl. f_equal.
    rewrite Hc2. simpl. rewrite (Hget _ _ _ Hck2). apply Hdec.
Qed.

End Histories.

(* ===================================================================== *)
(** * What a URL request depends on *)
(* ===================================================================== *)

Lemma same_setup_refl (w : world) : same_setup w w.
Proof. by repeat split. Qed.

Lemma same_setup_trans (u v w : world) :
  same_setup u v -> same_setup v w -> same_setup u w.
Proof.
  intros (H1 & H2 & H3 & H4 & H5) (G1 & G2 & G3 & G4 & G5).
  split; [congruence|]. split; [congruence|]. split; [congruence|].
  split; [congruence|]. intros name. by rewrite H5.
Qed.

Lemma same_setup_elapse d (w : world) : same_setup (elapse d w) w.
Proof. by repeat split. Qed.

Lemma same_setup_put_entry name key e (w : world) :
  same_setup (put_entry name key e w) w.
Proof.
  repeat split; try done; simpl.
  - intros [st Hst]. destruct (decide (name = name0)) as [<-|Hne].
    + rewrite lookup_alter_eq in Hst. by destruct (caches w !! name).
    + rewrite lookup_alter_ne in Hst by done. by eexists.
  - intros [st Hst]. destruct (decide (name = name0)) as [<-|Hne].
    + rewrite lookup_alter_eq, Hst. by eexists.
    + rewrite lookup_alter_ne by done. by eexists.
Qed.

Lemma get_cache_same_setup (v w : world) :
  same_setup v w -> fst (filesystem.get_cache v) = fst (filesystem.get_cache w).
Proof.
  intros (Hs & _ & _ & _ & Hc). unfold filesystem.get_cache. py_unfold. rewrite Hs.
  destruct (ORA2_FILEUPLOAD_CACHE_NAME (settings w)) as [n|]; [|done].
  specialize (Hc n).
  destruct (caches v !! n) eqn:Hv, (caches w !! n) eqn:Hw; try done.
  - destruct Hc as [Hc _]. by destruct Hc.
  - destruct Hc as [_ Hc]. by destruct Hc.
Qed.

Lemma make_upload_outcome k t (w : world) :
  fst (filesystem.make_upload_url_available k t w)
  = match fst (filesystem.get_cache w) with Ok _ => Ok tt | Raise e => Raise e end.
Proof.
  destruct (get_cache_cases w) as [(name & st & Hb)|[e He]].
  - by rewrite (make_upload_bound _ _ _ _ _ Hb), (get_cache_bound _ _ _ Hb).
  - by rewrite (make_upload_unbound _ _ _ _ He), He.
Qed.

Lemma make_download_outcome k t (w : world) :
  fst (filesystem.make_download_url_available k t w)
  = match fst (filesystem.get_cache w) with Ok _ => Ok tt | Raise e => Raise e end.
Proof.
  destruct (get_cache_cases w) as [(name & st & Hb)|[e He]].
  - by rewrite (make_download_bound _ _ _ _ _ Hb), (get_cache_bound _ _ _ Hb).
  - by rewrite (make_download_unbound _ _ _ _ He), He.
Qed.

Lemma make_upload_same_setup k t (w : world) :
  same_setup (snd (filesystem.make_upload_url_available k t w)) w.
Proof.
  destruct (get_cache_cases w) as [(name & st & Hb)|[e He]].
  - rewrite (make_upload_bound _ _ _ _ _ Hb). apply same_setup_put_entry.
  - rewrite (make_upload_unbound _ _ _ _ He). apply same_setup_refl.
Qed.

Lemma make_download_same_setup k t (w : world) :
  same_setup (snd (filesystem.make_download_url_available k t w)) w.
Proof.
  destruct (get_cache_cases w) as [(name & st & Hb)|[e He]].
  - rewrite (make_download_bound _ _ _ _ _ Hb). apply same_setup_put_entry.
  - rewrite (make_download_unbound _ _ _ _ He). apply same_setup_refl.
Qed.

Section Outcomes.
Context `{BaseBackend}.

Lemma _get_file_path_same_setup k (v w : world) :
  same_setup v w ->
  fst (filesystem._get_file_path k v) = fst (filesystem._get_file_path k w).
Proof.
  intros (Hs & Hc & _). unfold filesystem._get_file_path, filesystem._get_data_path,
    filesystem._get_bucket_path, filesystem._get_root_directory_path.
  py_unfold. cbv beta. rewrite Hs.
  destruct (ORA2_FILEUPLOAD_ROOT (settings w)) as [r|]; [|done].
  destruct (pystr.is_empty r); [done|].
  destruct get_bucket_name; [|done]. simpl. by rewrite Hc.
Qed.

Lemma get_upload_url_outcome key content_type (w : world) :
  fst (filesystem.get_upload_url key content_type w)
  = match fst (filesystem.get_cache w) with
    | Ok _ => fst (filesystem._get_url key w)
    | Raise e => Raise e
    end.
Proof.
  unfold filesystem.get_upload_url, bind.
  destruct (get_cache_cases w) as [(name & st & Hb)|[e He]].
  - rewrite (make_upload_bound _ _ _ _ _ Hb), (get_cache_bound _ _ _ Hb).
    by apply _get_url_prefix.
  - by rewrite (make_upload_unbound _ _ _ _ He), He.
Qed.

Lemma get_download_url_outcome key (w : world) :
  fst (filesystem.get_download_url key w)
  = match fst (filesystem._get_file_path (_get_key_name key) w) with
    | Raise e => Raise e
    | Ok p =>
        if disk w p then
          match fst (filesystem.get_cache w) with
          | Ok _ => fst (filesystem._get_url key w)
          | Raise e => Raise e
          end
        else Ok ""
    end.
Proof.
  destruct (fst (filesystem._get_file_path (_get_key_name key) w)) as [p|e] eqn:Hp.
  - destruct (disk w p) eqn:Hd.
    + rewrite (get_download_url_present key w p Hp Hd). unfold bind.
      destruct (get_cache_cases w) as [(name & st & Hb)|[e He]].
      * rewrite (make_download_bound _ _ _ _ _ Hb), (get_cache_bound _ _ _ Hb).
        by apply _get_url_prefix.
      * by rewrite (make_download_unbound _ _ _ _ He), He.
    + by rewrite (get_download_url_absent key w p Hp Hd).
  - by rewrite (get_download_url_raise key w e Hp).
Qed.

Lemma run_request_same_setup r (w : world) : same_setup (run_request r w) w.
Proof.
  destruct r as [d|k t|k t|k|k|key ct|key]; simpl.
  - apply same_setup_elapse.
  - apply make_upload_same_setup.
  - apply make_download_same_setup.
  - rewrite is_upload_world. apply same_setup_refl.
  - rewrite is_download_world. apply same_setup_refl.
  - rewrite get_upload_url_world. apply make_upload_same_setup.
  - destruct (get_download_url_world key w) as [-> | ->].
    + apply same_setup_refl.
    + apply make_download_same_setup.
Qed.

Lemma run_requests_same_setup rs (w : world) : same_setup (run_requests rs w) w.
Proof.
  revert w. induction rs as [|r rs IH]; intros w; [apply same_setup_refl|].
  change (run_requests (r :: rs) w) with (run_requests rs (run_request r w)).
  eapply same_setup_trans; [apply IH|apply run_request_same_setup].
Qed.

(** X14. What a URL request returns or raises depends on the configuration
    and the disk alone: after any history of calls and waits,
    [get_download_url] and [get_upload_url] answer as they would have before
    it. No grant, check or URL request makes [get_download_url] return a URL
    for a file that is not there. *)
Theorem url_request_outcome_ignores_history key content_type rs (w : world) :
  fst (filesystem.get_download_url key (run_requests rs w))
  = fst (filesystem.get_download_url key w)
  /\ fst (filesystem.get_upload_url key content_type (run_requests rs w))
     = fst (filesystem.get_upload_url key content_type w).
Proof.
  pose proof (run_requests_same_setup rs w) as Hs.
  rewrite !get_download_url_outcome, !get_upload_url_outcome.
  rewrite (_get_file_path_same_setup _ _ _ Hs), (get_cache_same_setup _ _ Hs).
  destruct Hs as (_ & _ & Hd & Hp & _).
  rewrite Hd, (_get_url_prefix key _ _ Hp). done.
Qed.

End Outcomes.

(* ===================================================================== *)
(** * More on paths *)
(* ===================================================================== *)

Lemma startswith_append (c : ascii) (a b : string) :
  a ≠ "" -> pystr.startswith c (a +:+ b) = pystr.startswith c a.
Proof. by destruct a. Qed.

Lemma startswith_nonempty (c : ascii) (s : string) :
  pystr.startswith c s = true -> s ≠ "".
Proof. by destruct s. Qed.

Lemma join_relative_glue (a b : string) :
  pystr.startswith "/" b = false -> posixpath.join a b = a +:+ join_glue a +:+ b.
Proof.
  intros Hb. unfold posixpath.join, posixpath.sep, join_glue. rewrite Hb.
  by destruct (pystr.is_empty a || pystr.endswith "/" a).
Qed.

Lemma join_absolute (a b : string) :
  pystr.startswith "/" b = true -> posixpath.join a b = b.
Proof. intros Hb. unfold posixpath.join, posixpath.sep. by rewrite Hb. Qed.

(** [join] with the leaf, on a directory that does not end with a slash. *)
Lemma join_content (dir : string) :
  dir ≠ "" -> pystr.endswith "/" dir = false ->
  posixpath.join dir "content" = dir +:+ "/content".
Proof. intros Hd He. by rewrite join_relative. Qed.

Lemma join_content_slash (dir : string) :
  posixpath.join (dir +:+ "/") "content" = dir +:+ "/content".
Proof.
  unfold posixpath.join, posixpath.sep. simpl.
  rewrite (endswith_snoc "/" "/" dir). simpl.
  rewrite orb_true_r. by rewrite append_assoc.
Qed.

Lemma initial_slashes_of_absolute (p : string) :
  posixpath.initial_slashes_of (String "/" p) = 1%nat
  \/ posixpath.initial_slashes_of (String "/" p) = 2%nat.
Proof.
  destruct p as [|[b0 b1 b2 b3 b4 b5 b6 b7] p]; [left; reflexivity|].
  destruct b0, b1, b2, b3, b4, b5, b6, b7; try (left; reflexivity).
  destruct p as [|[b0 b1 b2 b3 b4 b5 b6 b7] p]; [right; reflexivity|].
  destruct b0, b1, b2, b3, b4, b5, b6, b7;
    first [left; reflexivity | right; reflexivity].
Qed.

Lemma normpath_absolute (p : string) :
  pystr.startswith "/" p = true -> pystr.startswith "/" (posixpath.normpath p) = true.
Proof.
  intros Hp. destruct p as [|c p]; [done|]. simpl in Hp.
  apply Ascii.eqb_eq in Hp as ->. unfold posixpath.normpath.
  change (pystr.is_empty (String "/" p)) with false. cbv iota.
  generalize (pystr.join "/"
    (rev (fold_left (posixpath.norm_step (posixpath.initial_slashes_of (String "/" p)))
            (pystr.split posixpath.sep (String "/" p)) []))).
  intros q.
  destruct (initial_slashes_of_absolute p) as [-> | ->]; reflexivity.
Qed.

Lemma abspath_absolute (cwd p : string) :
  pystr.startswith "/" cwd = true ->
  pystr.startswith "/" (posixpath.abspath cwd p) = true.
Proof.
  intros Hc. unfold posixpath.abspath, posixpath.isabs, posixpath.sep.
  apply normpath_absolute.
  destruct (pystr.startswith "/" p) eqn:Hp; [done|].
  rewrite join_relative_glue by done.
  rewrite startswith_append; [done|]. by apply startswith_nonempty in Hc.
Qed.

Section Paths.
Context `{BaseBackend}.

Lemma _get_bucket_path_eta (w : world) :
  filesystem._get_bucket_path w = (fst (filesystem._get_bucket_path w), w).
Proof.
  pose proof (_get_bucket_path_world w).
  destruct (filesystem._get_bucket_path w); simpl in *; congruence.
Qed.

(** The file of a key name, from the bucket path. *)
Lemma _get_file_path_from_bucket k (w : world) :
  fst (filesystem._get_file_path k w)
  = match fst (filesystem._get_bucket_path w) with
    | Ok b => Ok (posixpath.join (posixpath.join b k) "content")
    | Raise e => Raise e
    end.
Proof.
  unfold filesystem._get_file_path, filesystem._get_data_path, bind.
  rewrite _get_bucket_path_eta.
  by destruct (fst (filesystem._get_bucket_path w)).
Qed.

(** X15. When the working directory is an absolute path, so is the bucket
    path, whatever the root directory setting and the bucket name are. *)
Theorem bucket_path_is_absolute (w : world) b :
  pystr.startswith "/" (cwd w) = true ->
  fst (filesystem._get_bucket_path w) = Ok b ->
  pystr.startswith "/" b = true.
Proof.
  intros Hc. unfold filesystem._get_bucket_path, filesystem._get_root_directory_path.
  py_unfold. cbv beta.
  destruct (ORA2_FILEUPLOAD_ROOT (settings w)) as [r|]; [|done].
  destruct (pystr.is_empty r); [done|].
  destruct get_bucket_name; [|done]. cbn [fst].
  intros Hb. injection Hb as <-. by apply abspath_absolute.
Qed.


(** X17. A key name that starts with a slash takes its file out of the root
    directory and the bucket: whatever these are, the file is [content] under
    the key name itself. *)
Theorem absolute_key_name_leaves_bucket_path key_name (w : world) b :
  fst (filesystem._get_bucket_path w) = Ok b ->
  pystr.startswith "/" key_name = true ->
  pystr.endswith "/" key_name = false ->
  filesystem._get_file_path key_name w = (Ok (key_name +:+ "/content"), w).
Proof.
  intros Hb Hk He. rewrite _get_file_path_eta, _get_file_path_from_bucket, Hb.
  rewrite (join_absolute b key_name Hk).
  rewrite join_content; [done| |done]. by apply startswith_nonempty in Hk.
Qed.

(** The directory of a relative key name that neither is empty nor ends with
    a slash does not end with a slash either. *)
Lemma data_path_relative (b k : string) :
  k ≠ "" -> pystr.startswith "/" k = false -> pystr.endswith "/" k = false ->
  posixpath.join (posixpath.join b k) "content"
  = (b +:+ join_glue b +:+ k) +:+ "/content".
Proof.
  intros Hk Hs He. rewrite (join_relative_glue b k Hs).
  apply join_content.
  - intros Hn. apply is_empty_true in Hn. rewrite !append_is_empty in Hn.
    apply is_empty_false in Hk. rewrite Hk in Hn. by rewrite !andb_false_r in Hn.
  - by rewrite <- append_assoc, endswith_append.
Qed.

(** X18. Key names that are relative paths, not empty and without a closing
    slash, have files of their own: two of them with the same file are the
    same key name. *)
Theorem file_path_injective k1 k2 (w : world) p :
  k1 ≠ "" -> pystr.startswith "/" k1 = false -> pystr.endswith "/" k1 = false ->
  k2 ≠ "" -> pystr.startswith "/" k2 = false -> pystr.endswith "/" k2 = false ->
  fst (filesystem._get_file_path k1 w) = Ok p ->
  fst (filesystem._get_file_path k2 w) = Ok p ->
  k1 = k2.
Proof.
  intros H1 S1 E1 H2 S2 E2. rewrite !_get_file_path_from_bucket.
  destruct (fst (filesystem._get_bucket_path w)) as [b|e]; [|done].
  rewrite (data_path_relative b k1 H1 S1 E1), (data_path_relative b k2 H2 S2 E2).
  intros [= <-] [= Hp]. apply append_cancel_r in Hp.
  apply append_cancel_l in Hp. by apply append_cancel_l in Hp.
Qed.

(** X19. A closing slash does not tell key names apart: a key name that is
    not empty and does not end with a slash has the same file as the key name
    with a slash added. *)
Theorem closing_slash_same_file key_name (w : world) :
  key_name ≠ "" ->
  pystr.endswith "/" key_name = false ->
  fst (filesystem._get_file_path (key_name +:+ "/") w)
  = fst (filesystem._get_file_path key_name w).
Proof.
  intros Hk He. rewrite !_get_file_path_from_bucket.
  destruct (fst (filesystem._get_bucket_path w)) as [b|e]; [|done]. f_equal.
  destruct (pystr.startswith "/" key_name) eqn:Hs.
  - rewrite (join_absolute b key_name Hs).
    rewrite (join_absolute b (key_name +:+ "/"))
      by (by rewrite startswith_append).
    rewrite join_content_slash. by rewrite join_content.
  - rewrite (data_path_relative b key_name Hk Hs He).
    rewrite (join_relative_glue b (key_name +:+ "/"))
      by (by rewrite startswith_append).
    rewrite <- !append_assoc. rewrite join_content_slash.
    by rewrite !append_assoc.
Qed.

(** X20. With the root directory set, an error of [Settings.get_bucket_name]
    goes through every path function to [get_download_url] as it is, and the
    world is left as it was: no grant is stored. *)
Theorem bucket_name_error_propagates key k root e (w : world) :
  ORA2_FILEUPLOAD_ROOT (settings w) = Some root ->
  root ≠ "" ->
  get_bucket_name = Raise e ->
  filesystem._get_bucket_path w = (Raise e, w)
  /\ filesystem._get_data_path k w = (Raise e, w)
  /\ filesystem._get_file_path k w = (Raise e, w)
  /\ filesystem.get_download_url key w = (Raise e, w).
Proof.
  intros Hr Hne Hb.
  assert (Hbp : filesystem._get_bucket_path w = (Raise e, w)).
  { unfold filesystem._get_bucket_path, filesystem._get_root_directory_path.
    py_unfold. cbv beta. rewrite Hr. apply is_empty_false in Hne.
    by rewrite Hne, Hb. }
  assert (Hf : forall k', filesystem._get_file_path k' w = (Raise e, w)).
  { intros k'. unfold filesystem._get_file_path, filesystem._get_data_path, bind.
    by rewrite Hbp. }
  split; [done|]. split; [|split; [done|]].
  - unfold filesystem._get_data_path, bind. by rewrite Hbp.
  - apply get_download_url_raise. by rewrite Hf.
Qed.

End Paths.

(* ===================================================================== *)
(** * More on the StudentItem table *)
(* ===================================================================== *)

Section Ledger_rows.
Import submissions.



End Ledger_rows.

(* ===================================================================== *)
(** * The further statements at work *)
(* ===================================================================== *)




Lemma resolve_keywords_witness :
  urls.resolve "abc|def|ghi/" = Some ("abc", Some "def|ghi")
  /\ "abc" ≠ ""
  /\ pystr.contains "|" "abc" = false /\ "def|ghi" ≠ ""
  /\ pystr.contains urls.newline "def|ghi" = false.
Proof.
  assert (Hr : urls.resolve "abc|def|ghi/" = Some ("abc", Some "def|ghi"))
    by reflexivity.
  split; [exact Hr|]. exact (resolve_keywords _ _ _ Hr).
Defined.


Lemma unconfigured_cache_raises_witness :
  ORA2_FILEUPLOAD_CACHE_NAME (settings unnamed_cache_world) = Some ""
  /\ caches unnamed_cache_world !! "" = None
  /\ filesystem.is_upload_url_available "att1" unnamed_cache_world
     = (Raise (InvalidCacheBackendError ""), unnamed_cache_world)
  /\ @filesystem.get_upload_url example_backend "att1" "image/png" unnamed_cache_world
     = (Raise (InvalidCacheBackendError ""), unnamed_cache_world).
Proof.
  assert (Hn : ORA2_FILEUPLOAD_CACHE_NAME (settings unnamed_cache_world) = Some "")
    by reflexivity.
  assert (Hc : caches unnamed_cache_world !! "" = None) by (vm_compute; reflexivity).
  split; [exact Hn|]. split; [exact Hc|].
  destruct (@unconfigured_cache_raises example_backend "att1" "image/png" "att1" 60 ""
              unnamed_cache_world Hn Hc) as (_ & _ & _ & Hu & _ & Hg).
  split; [exact Hu|exact Hg].
Defined.

Lemma grants_of_other_keys_independent_witness :
  "att1" ≠ "att2"
  /\ fst (filesystem.is_upload_url_available "att2"
            (elapse 5 (snd (filesystem.make_upload_url_available "att1" 60 example_world))))
     = fst (filesystem.is_upload_url_available "att2" (elapse 5 example_world)).
Proof.
  assert (Hk : "att1" ≠ "att2") by discriminate.
  split; [exact Hk|].
  exact (proj1 (grants_of_other_keys_independent "att1" "att2" 60 5 example_world Hk)).
Defined.

Lemma upload_url_is_authorized_witness :
  fst (@filesystem.get_upload_url example_backend "att2" "image/png" example_world)
  = Ok "/openassessment/storage/submissions_attachments/att2/"
  /\ 3599 < @UPLOAD_URL_TIMEOUT example_backend
  /\ fst (filesystem.is_upload_url_available (@_get_key_name example_backend "att2")
            (elapse 3599
               (snd (@filesystem.get_upload_url example_backend "att2" "image/png"
                       example_world))))
     = Ok true.
Proof.
  assert (Hu : fst (@filesystem.get_upload_url example_backend "att2" "image/png"
                      example_world)
               = Ok "/openassessment/storage/submissions_attachments/att2/")
    by (vm_compute; reflexivity).
  assert (Hd : 3599 < @UPLOAD_URL_TIMEOUT example_backend) by (simpl; lia).
  split; [exact Hu|]. split; [exact Hd|].
  exact (@upload_url_is_authorized example_backend "att2" "image/png" _ 3599
           example_world Hu Hd).
Defined.

Lemma download_url_is_authorized_witness :
  fst (@filesystem.get_download_url example_backend "att1" example_world)
  = Ok "/openassessment/storage/submissions_attachments/att1/"
  /\ "/openassessment/storage/submissions_attachments/att1/" ≠ ""
  /\ 3599 < @DOWNLOAD_URL_TIMEOUT example_backend
  /\ fst (filesystem.is_download_url_available (@_get_key_name example_backend "att1")
            (elapse 3599
               (snd (@filesystem.get_download_url example_backend "att1" example_world))))
     = Ok true.
Proof.
  assert (Hu : fst (@filesystem.get_download_url example_backend "att1" example_world)
               = Ok "/openassessment/storage/submissions_attachments/att1/")
    by (vm_compute; reflexivity).
  assert (Hne : "/openassessment/storage/submissions_attachments/att1/" ≠ "")
    by discriminate.
  assert (Hd : 3599 < @DOWNLOAD_URL_TIMEOUT example_backend) by (simpl; lia).
  split; [exact Hu|]. split; [exact Hne|]. split; [exact Hd|].
  exact (@download_url_is_authorized example_backend "att1" _ 3599
           example_world Hu Hne Hd).
Defined.

Lemma download_url_is_upload_url_witness :
  fst (@filesystem.get_download_url example_backend "att1" example_world)
  = Ok "/openassessment/storage/submissions_attachments/att1/"
  /\ "/openassessment/storage/submissions_attachments/att1/" ≠ ""
  /\ fst (@filesystem.get_upload_url example_backend "att1" "image/png" example_world)
     = Ok "/openassessment/storage/submissions_attachments/att1/".
Proof.
  assert (Hu : fst (@filesystem.get_download_url example_backend "att1" example_world)
               = Ok "/openassessment/storage/submissions_attachments/att1/")
    by (vm_compute; reflexivity).
  assert (Hne : "/openassessment/storage/submissions_attachments/att1/" ≠ "")
    by discriminate.
  split; [exact Hu|]. split; [exact Hne|].
  exact (@download_url_is_upload_url example_backend "att1" "image/png" _
           example_world Hu Hne).
Defined.

Lemma grant_outlives_other_requests_witness :
  let rs := [Wait 20; GetUploadUrl "att2" "image/png"; MakeDownload "att1" 5;
             GetDownloadUrl "att1"; CheckUpload "att1"; Wait 30] in
  bound_cache example_world "ora2-storage" ∅
  /\ forallb (fun r => negb (@grants_upload plain_backend "att1" r)) rs = true
  /\ fst (filesystem.is_upload_url_available "att1"
            (@run_requests plain_backend rs
               (snd (filesystem.make_upload_url_available "att1" 60 example_world))))
     = Ok true.
Proof.
  intros rs.
  assert (Hb : bound_cache example_world "ora2-storage" ∅) by (split; reflexivity).
  assert (Hrs : forallb (fun r => negb (@grants_upload plain_backend "att1" r)) rs = true)
    by (vm_compute; reflexivity).
  split; [exact Hb|]. split; [exact Hrs|].
  destruct (@grant_outlives_other_requests plain_backend "att1" 60 rs example_world
              "ora2-storage" ∅ Hb) as [Hup _].
  rewrite (Hup Hrs). reflexivity.
Defined.

Lemma bucket_path_is_absolute_witness :
  pystr.startswith "/" (cwd example_world) = true
  /\ fst (@filesystem._get_bucket_path example_backend example_world)
     = Ok "/edx/var/ora2/openassessment"
  /\ pystr.startswith "/" "/edx/var/ora2/openassessment" = true.
Proof.
  assert (Hc : pystr.startswith "/" (cwd example_world) = true) by reflexivity.
  assert (Hb : fst (@filesystem._get_bucket_path example_backend example_world)
               = Ok "/edx/var/ora2/openassessment")
    by (vm_compute; reflexivity).
  split; [exact Hc|]. split; [exact Hb|].
  exact (@bucket_path_is_absolute example_backend example_world _ Hc Hb).
Defined.


Lemma absolute_key_name_leaves_bucket_path_witness :
  fst (@filesystem._get_bucket_path example_backend example_world)
  = Ok "/edx/var/ora2/openassessment"
  /\ pystr.startswith "/" "/etc/ora2" = true
  /\ pystr.endswith "/" "/etc/ora2" = false
  /\ @filesystem._get_file_path example_backend "/etc/ora2" example_world
     = (Ok "/etc/ora2/content", example_world).
Proof.
  assert (Hb : fst (@filesystem._get_bucket_path example_backend example_world)
               = Ok "/edx/var/ora2/openassessment")
    by (vm_compute; reflexivity).
  assert (Hk : pystr.startswith "/" "/etc/ora2" = true) by reflexivity.
  assert (He : pystr.endswith "/" "/etc/ora2" = false) by reflexivity.
  split; [exact Hb|]. split; [exact Hk|]. split; [exact He|].
  exact (@absolute_key_name_leaves_bucket_path example_backend "/etc/ora2"
           example_world _ Hb Hk He).
Defined.

Lemma file_path_injective_witness :
  fst (@filesystem._get_file_path example_backend "att1" example_world)
  = Ok "/edx/var/ora2/openassessment/att1/content"
  /\ "att1" = "att1".
Proof.
  assert (Hp : fst (@filesystem._get_file_path example_backend "att1" example_world)
               = Ok "/edx/var/ora2/openassessment/att1/content")
    by (vm_compute; reflexivity).
  split; [exact Hp|].
  apply (@file_path_injective example_backend "att1" "att1" example_world
           "/edx/var/ora2/openassessment/att1/content");
    first [discriminate | reflexivity | exact Hp].
Defined.

Lemma closing_slash_same_file_witness :
  "att1" ≠ "" /\ pystr.endswith "/" "att1" = false
  /\ fst (@filesystem._get_file_path example_backend "att1/" example_world)
     = fst (@filesystem._get_file_path example_backend "att1" example_world).
Proof.
  assert (Hk : "att1" ≠ "") by discriminate.
  assert (He : pystr.endswith "/" "att1" = false) by reflexivity.
  split; [exact Hk|]. split; [exact He|].
  exact (@closing_slash_same_file example_backend "att1" example_world Hk He).
Defined.

Lemma bucket_name_error_propagates_witness :
  ORA2_FILEUPLOAD_ROOT (settings example_world) = Some "/edx/var/ora2"
  /\ @get_bucket_name bucketless_backend = Raise (OtherError "no bucket name")
  /\ @filesystem.get_download_url bucketless_backend "att1" example_world
     = (Raise (OtherError "no bucket name"), example_world).
Proof.
  assert (Hr : ORA2_FILEUPLOAD_ROOT (settings example_world) = Some "/edx/var/ora2")
    by reflexivity.
  assert (Hne : "/edx/var/ora2" ≠ "") by discriminate.
  assert (Hb : @get_bucket_name bucketless_backend = Raise (OtherError "no bucket name"))
    by reflexivity.
  split; [exact Hr|]. split; [exact Hb|].
  destruct (@bucket_name_error_propagates bucketless_backend "att1" "att1"
              "/edx/var/ora2" _ example_world Hr Hne Hb) as (_ & _ & _ & Hg).
  exact Hg.
Defined.

